(** * parrot: a character device that keeps its last message on an xMP-isolated page

    A shallow embedding of [parrot.c].  The module keeps one signed pointer
    ([message]) to a page allocated inside its own protection domain
    ([parrot_pdomain]); [parrot_write] replaces the page, [parrot_read]
    copies from it, [parrot_exit] releases it.

    The xMP primitives ([xmp_sign_ptr], [xmp_auth_ptr], [xmp_unprotect],
    [xmp_protect], [xmp_alloc_pdomain], [xmp_free_pdomain]) come from
    [<xen/interface/xmp.h>], which is not part of the sources; they are
    modelled from the specification (Domain Registry, Capability Codec,
    Access Switcher).  The page allocator and the user-copy helpers are the
    kernel's; their model is kept to what [parrot.c] relies on. *)

From stdpp Require Import gmap list.
From Stdlib.Strings Require Import Byte.

Local Open Scope Z_scope.

(** ** Machine integers and bytes *)

#[global] Instance byte_eq_dec : EqDecision byte := Byte.byte_eq_dec.

(** The byte with value [n mod 256]. *)
Definition byte_of_Z (n : Z) : byte :=
  default x00 (Byte.of_N (Z.to_N (n mod 256))).

(** Little-endian encoding of an unsigned integer on [w] bytes. *)
Fixpoint le_bytes (w : nat) (n : Z) : list byte :=
  match w with
  | O => []
  | S w' => byte_of_Z n :: le_bytes w' (Z.shiftr n 8)
  end.

(** Conversion to [int]: the low 32 bits, read as signed. *)
Definition to_int (n : Z) : Z :=
  let m := n mod 2 ^ 32 in
  if decide (m < 2 ^ 31) then m else m - 2 ^ 32.

(** Conversion to [long] (and [ssize_t]): 64 bits, read as signed. *)
Definition to_long (n : Z) : Z :=
  let m := n mod 2 ^ 64 in
  if decide (m < 2 ^ 63) then m else m - 2 ^ 64.

Definition EFAULT : Z := 14.
Definition MAX_ERRNO : Z := 4095.

(** [IS_ERR(p)]: the top [MAX_ERRNO] addresses encode error numbers. *)
Definition IS_ERR (p : Z) : bool := bool_decide (2 ^ 64 - MAX_ERRNO ≤ p).

(** [PTR_ERR(p)]: the pointer read as a signed [long]. *)
Definition PTR_ERR (p : Z) : Z := to_long p.

(** Modelled from the spec: the size of an isolated page ("one page, e.g.
    4096-byte"); [PAGE_SIZE] itself comes from the kernel headers. *)
Definition PAGE_SIZE : Z := 4096.

(** [struct parrot_message { char message[256]; size_t message_size; }]
    on a 64-bit kernel: [message] at offset 0, [message_size] right after
    it, eight bytes wide. *)
Definition MESSAGE_LEN : Z := 256.
Definition offsetof_message : Z := 0.
Definition offsetof_message_size : Z := 256.
Definition sizeof_size_t : nat := 8.

(** ** The xMP interface *)

Module XMP.

(** Modelled from the spec: [<xen/interface/xmp.h>] is missing.  A
    capability is "a tamper-evident wrapper over (RawHandle,
    ProtectionDomain, Context)", abstracted as "handle + domain + context
    + integrity tag". *)
Record Capability := mkCap {
  cap_handle : Z;
  cap_ctx : Z;
  cap_domain : Z;
  cap_tag : positive
}.

#[global] Instance Capability_eq_dec : EqDecision Capability.
Proof. solve_decision. Defined.

(** Modelled from the spec: the authentication material that sign and
    authenticate compute over the handle, the context and the domain
    (the construction is left open by the specification; an injective
    code of the triple is used). *)
Definition seal (h ctx d : Z) : positive := encode (h, ctx, d).

(** Modelled from the spec: [sign(handle, ctx, domain)] "binds handle to
    (ctx, domain)" and has no side effect. *)
Definition sign (h ctx d : Z) : Capability :=
  {| cap_handle := h; cap_ctx := ctx; cap_domain := d; cap_tag := seal h ctx d |}.

(** Modelled from the spec: what authenticate answers, "RawHandle |
    AuthFailure", and [DomainRevoked] for a capability of a freed domain. *)
Inductive auth_result :=
| Handle (h : Z)
| AuthFailure
| DomainRevoked.

#[global] Instance auth_result_eq_dec : EqDecision auth_result.
Proof. solve_decision. Defined.

(** Modelled from the spec: [authenticate(cap, ctx, domain)] "returns
    the original handle only if ctx and domain match exactly what was
    used at signing time and the domain is still allocated and the
    capability bytes are unmodified"; any discrepancy is [AuthFailure],
    a capability of a freed domain is [DomainRevoked]. *)
Definition authenticate (allocated : gset Z) (cap : Capability) (ctx d : Z)
  : auth_result :=
  if decide (cap_ctx cap = ctx ∧ cap_domain cap = d
             ∧ cap_tag cap = seal (cap_handle cap) ctx d)
  then if decide (d ∈ allocated) then Handle (cap_handle cap) else DomainRevoked
  else AuthFailure.

(** Modelled from the spec: [allocate_domain] "returns the first free id
    out of MAX_DOMAINS"; the C function reports exhaustion by returning
    the pool size itself, which is what [parrot_init] tests for. *)
Definition first_free (max_pdomains : Z) (allocated : gset Z) : Z :=
  match list_find (λ d, d ∉ allocated) (seqZ 0 max_pdomains) with
  | Some (_, d) => d
  | None => max_pdomains
  end.

(** Modelled from the spec: the Access Switcher's protection mode. *)
Inductive prot_mode :=
| Protected
| Unprotected (d : Z).

#[global] Instance prot_mode_eq_dec : EqDecision prot_mode.
Proof. solve_decision. Defined.

End XMP.
Export XMP.

(** ** Kernel state *)

(** What a [struct parrot_message *] variable holds: a plain kernel address
    ([NULL] is address 0) or what [xmp_sign_ptr] returned. *)
Inductive pointer :=
| Plain (addr : Z)
| Signed (cap : Capability).

#[global] Instance pointer_eq_dec : EqDecision pointer.
Proof. solve_decision. Defined.

Definition NULL : pointer := Plain 0.

(** The C truth value of a pointer, as in [if (message)]. *)
Definition nonnull (p : pointer) : bool :=
  match p with
  | Plain a => bool_decide (a ≠ 0)
  | Signed _ => true
  end.

(** A page held from the page allocator: the domain encoded in its GFP
    flags and its [PAGE_SIZE] bytes. *)
Record page := mkPage {
  pg_domain : Z;
  pg_data : list byte
}.

#[global] Instance page_eq_dec : EqDecision page.
Proof. solve_decision. Defined.

Definition zeroed_page (d : Z) : page :=
  {| pg_domain := d; pg_data := replicate (Z.to_nat PAGE_SIZE) x00 |}.

(** The module's globals ([num_opens], [major], [parrot_pdomain],
    [message]) and the part of the kernel they interact with: the pages
    the module holds, the protection mode and the domain pool. *)
Record kstate := mkState {
  num_opens : Z;
  major : Z;
  parrot_pdomain : Z;
  message : pointer;
  pages : gmap Z page;
  mode : prot_mode;
  allocated : gset Z
}.

#[global] Instance kstate_eq_dec : EqDecision kstate.
Proof. solve_decision. Defined.

Definition set_num_opens (v : Z) (s : kstate) : kstate :=
  mkState v (major s) (parrot_pdomain s) (message s) (pages s) (mode s) (allocated s).
Definition set_major (v : Z) (s : kstate) : kstate :=
  mkState (num_opens s) v (parrot_pdomain s) (message s) (pages s) (mode s) (allocated s).
Definition set_pdomain (v : Z) (s : kstate) : kstate :=
  mkState (num_opens s) (major s) v (message s) (pages s) (mode s) (allocated s).
Definition set_message (v : pointer) (s : kstate) : kstate :=
  mkState (num_opens s) (major s) (parrot_pdomain s) v (pages s) (mode s) (allocated s).
Definition set_pages (v : gmap Z page) (s : kstate) : kstate :=
  mkState (num_opens s) (major s) (parrot_pdomain s) (message s) v (mode s) (allocated s).
Definition set_mode (v : prot_mode) (s : kstate) : kstate :=
  mkState (num_opens s) (major s) (parrot_pdomain s) (message s) (pages s) v (allocated s).
Definition set_allocated (v : gset Z) (s : kstate) : kstate :=
  mkState (num_opens s) (major s) (parrot_pdomain s) (message s) (pages s) (mode s) v.

(** The state of a freshly loaded module, before [parrot_init]: the
    static initialisers of [parrot.c], no page held, nothing unprotected. *)
Definition loaded (allocated0 : gset Z) : kstate :=
  {| num_opens := 0; major := 0; parrot_pdomain := 0; message := NULL;
     pages := ∅; mode := Protected; allocated := allocated0 |}.

(** ** Effects: state, a trace of calls, and faults *)

Inductive glue_call :=
| register_chrdev
| unregister_chrdev
| class_create
| class_unregister
| class_destroy
| device_create
| device_destroy.

(** The calls the module makes, in the order it makes them. *)
Inductive event :=
| EvAllocDomain (d : Z)
| EvFreeDomain (d : Z)
| EvAuth (p : pointer) (r : auth_result)
| EvSign (addr : Z)
| EvGetPage (addr : Z)
| EvFreePages (addr : Z)
| EvUnprotect (d : Z)
| EvProtect
| EvCopyFromUser (dst : Z) (n : Z)
| EvStoreSize (dst : Z) (v : Z)
| EvPrintk (s : list byte)
| EvCopyToUser (src : Z) (n : Z)
| EvGlue (c : glue_call).

#[global] Instance glue_call_eq_dec : EqDecision glue_call.
Proof. solve_decision. Defined.
#[global] Instance event_eq_dec : EqDecision event.
Proof. solve_decision. Defined.

(** The ways the module can touch memory it must not touch.  Execution of
    the model stops there; what the machine does next is not modelled. *)
Inductive fault :=
| BadPointer (r : auth_result)   (* use of a pointer that did not authenticate *)
| NotAPage (addr : Z)            (* access to, or free of, no page the module holds *)
| OutOfPage (addr off n : Z)     (* access running past the end of the page *)
| ReadOnly (addr : Z)            (* store to a page whose domain is protected *)
| Unterminated (addr : Z).       (* string without NUL before the end of the page *)

#[global] Instance fault_eq_dec : EqDecision fault.
Proof. solve_decision. Defined.

Inductive outcome (A : Type) :=
| Ret (a : A)
| Fault (f : fault).
Arguments Ret {A} a.
Arguments Fault {A} f.

Definition M (A : Type) : Type := kstate → outcome A * kstate * list event.

#[global] Instance M_ret : MRet M := λ A a s, (Ret a, s, []).
#[global] Instance M_bind : MBind M := λ A B f m s,
  match m s with
  | (Ret a, s', t) => let '(r, s'', t') := f a s' in (r, s'', t ++ t')
  | (Fault e, s', t) => (Fault e, s', t)
  end.

Definition get : M kstate := λ s, (Ret s, s, []).
Definition modify (f : kstate → kstate) : M unit := λ s, (Ret (), f s, []).
Definition emit (e : event) : M unit := λ s, (Ret (), s, [e]).
Definition raise {A} (e : fault) : M A := λ s, (Fault e, s, []).

Definition result_of {A} (r : outcome A * kstate * list event) : outcome A := r.1.1.
Definition state_of {A} (r : outcome A * kstate * list event) : kstate := r.1.2.
Definition trace_of {A} (r : outcome A * kstate * list event) : list event := r.2.

(** ** The xMP primitives as the module calls them *)

(** Modelled from the spec: [xmp_sign_ptr] is the Capability Codec's sign. *)
Definition xmp_sign_ptr (addr ctx d : Z) : M pointer :=
  emit (EvSign addr);;
  mret (Signed (sign addr ctx d)).

(** Modelled from the spec: [xmp_auth_ptr] is the Capability Codec's
    authenticate; a pointer that [xmp_sign_ptr] never produced is rejected. *)
Definition xmp_auth_ptr (p : pointer) (ctx d : Z) : M auth_result :=
  s ← get;
  let r := match p with
           | Signed cap => authenticate (allocated s) cap ctx d
           | Plain _ => AuthFailure
           end in
  emit (EvAuth p r);;
  mret r.

(** The source uses what [xmp_auth_ptr] returns as an address without any
    check; only an authenticated handle is one. *)
Definition as_address (r : auth_result) : M Z :=
  match r with
  | Handle h => mret h
  | _ => raise (BadPointer r)
  end.

(** Modelled from the spec: [unprotect(domain)], Protected to
    Unprotected(domain), with no guard against misuse. *)
Definition xmp_unprotect (d : Z) : M unit :=
  emit (EvUnprotect d);;
  modify (set_mode (Unprotected d)).

(** Modelled from the spec: [protect()], back to Protected. *)
Definition xmp_protect : M unit :=
  emit EvProtect;;
  modify (set_mode Protected).

(** Modelled from the spec: [allocate_domain]. *)
Definition xmp_alloc_pdomain (max_pdomains : Z) : M Z :=
  s ← get;
  let d := first_free max_pdomains (allocated s) in
  emit (EvAllocDomain d);;
  (if decide (d < max_pdomains)
   then modify (set_allocated ({[d]} ∪ allocated s))
   else mret ());;
  mret d.

(** Modelled from the spec: [free_domain(d)] returns [d] to the pool. *)
Definition xmp_free_pdomain (d : Z) : M unit :=
  emit (EvFreeDomain d);;
  s ← get;
  modify (set_allocated (allocated s ∖ {[d]})).

(** ** The kernel helpers *)

(** [get_zeroed_page(XMP_GFP_FLAGS(d, GFP_KERNEL))]: the allocator's answer
    [fresh] is the environment's (0 when no page is available); the page
    comes zeroed and belongs to domain [d]. *)
Definition get_zeroed_page (fresh : Z) (d : Z) : M Z :=
  emit (EvGetPage fresh);;
  (if decide (fresh = 0) then mret ()
   else s ← get; modify (set_pages (<[fresh := zeroed_page d]> (pages s))));;
  mret fresh.

(** [free_pages(addr, 0)]: a null address is ignored. *)
Definition free_pages (addr : Z) : M unit :=
  emit (EvFreePages addr);;
  if decide (addr = 0) then mret ()
  else
    s ← get;
    match pages s !! addr with
    | Some _ => modify (set_pages (delete addr (pages s)))
    | None => raise (NotAPage addr)
    end.

(** [bytes] written over [data] from offset [off] on. *)
Definition splice (data : list byte) (off : nat) (bytes : list byte) : list byte :=
  take off data ++ bytes ++ drop (off + length bytes) data.

(** A store of [bytes] at offset [off] of the page at [addr]. *)
Definition page_store (addr off : Z) (bytes : list byte) : M unit :=
  if decide (bytes = []) then mret ()
  else
    s ← get;
    match pages s !! addr with
    | None => raise (NotAPage addr)
    | Some pg =>
        if decide (off + Z.of_nat (length bytes) ≤ PAGE_SIZE) then
          if decide (mode s = Unprotected (pg_domain pg)) then
            modify (set_pages
              (<[addr := mkPage (pg_domain pg) (splice (pg_data pg) (Z.to_nat off) bytes)]>
                 (pages s)))
          else raise (ReadOnly addr)
        else raise (OutOfPage addr off (Z.of_nat (length bytes)))
    end.

(** A load of [n] bytes at offset [off] of the page at [addr]. *)
Definition page_load (addr off n : Z) : M (list byte) :=
  if decide (n ≤ 0) then mret []
  else
    s ← get;
    match pages s !! addr with
    | None => raise (NotAPage addr)
    | Some pg =>
        if decide (off + n ≤ PAGE_SIZE) then
          mret (take (Z.to_nat n) (drop (Z.to_nat off) (pg_data pg)))
        else raise (OutOfPage addr off n)
    end.

(** The bytes before the first NUL. *)
Fixpoint cstring (data : list byte) : list byte :=
  match data with
  | [] => []
  | b :: rest => if decide (b = x00) then [] else b :: cstring rest
  end.

(** The NUL-terminated string at offset [off] of the page at [addr], as
    [printk("%s")] reads it. *)
Definition load_cstring (addr off : Z) : M (list byte) :=
  s ← get;
  match pages s !! addr with
  | None => raise (NotAPage addr)
  | Some pg =>
      let data := drop (Z.to_nat off) (pg_data pg) in
      if decide (x00 ∈ data) then mret (cstring data)
      else raise (Unterminated addr)
  end.

(** [copy_from_user(addr + off, from, n)], where [from] lists the bytes
    readable at the user address: what can be read is copied, the rest of
    the [n] destination bytes is zeroed, and the number of bytes that
    could not be copied is returned. *)
Definition copy_from_user (addr off : Z) (from : list byte) (n : Z) : M Z :=
  emit (EvCopyFromUser (addr + off) n);;
  page_store addr off (take (Z.to_nat n) (from ++ replicate (Z.to_nat n) x00));;
  mret (n - Z.min n (Z.of_nat (length from))).

(** [copy_to_user(to, addr + off, n)], where [room] is the number of bytes
    writable at the user address: returns the number of bytes that could
    not be copied, and the bytes that were. *)
Definition copy_to_user (room : Z) (addr off : Z) (n : Z) : M (Z * list byte) :=
  emit (EvCopyToUser (addr + off) n);;
  let k := Z.min n (Z.max 0 room) in
  out ← page_load addr off k;
  mret (n - k, out).

(** ** The module *)

Section Parrot.

(** The address of the module object, used as the signing context. *)
Variable THIS_MODULE : Z.

(** The size of the domain pool; its value comes with [xmp.h]. *)
Variable XMP_MAX_PDOMAINS : Z.

(** [parrot_open]. *)
Definition parrot_open : M Z :=
  s ← get;
  modify (set_num_opens (to_int (num_opens s + 1)));;
  mret 0.

(** [parrot_read(filep, buffer, len, offset)]: [room] is the number of
    bytes writable at [buffer].  Returns the [ssize_t] result and the
    bytes stored to the user buffer. *)
Definition parrot_read (room : Z) (len : Z) : M (Z * list byte) :=
  s ← get;
  r ← xmp_auth_ptr (message s) THIS_MODULE (parrot_pdomain s);
  parrot_message ← as_address r;
  str ← load_cstring parrot_message offsetof_message;
  emit (EvPrintk str);;
  '(uncopied, out) ← copy_to_user room parrot_message offsetof_message len;
  let error_count := to_int uncopied in
  if decide (error_count = 0) then mret (0, out)
  else mret (- EFAULT, out).

(** [parrot_write(filep, buffer, len, offset)]: [buffer] lists the bytes
    readable at the user address, [fresh] is the answer of the page
    allocator.  Returns the [ssize_t] result. *)
Definition parrot_write (fresh : Z) (buffer : list byte) (len : Z) : M Z :=
  s ← get;
  (if nonnull (message s) then
     r ← xmp_auth_ptr (message s) THIS_MODULE (parrot_pdomain s);
     addr ← as_address r;
     free_pages addr
   else mret ());;
  parrot_message ← get_zeroed_page fresh (parrot_pdomain s);
  if IS_ERR parrot_message then mret (PTR_ERR parrot_message)
  else
    xmp_unprotect (parrot_pdomain s);;
    uncopied ← copy_from_user parrot_message offsetof_message buffer len;
    let error_count := to_int uncopied in
    emit (EvStoreSize (parrot_message + offsetof_message_size) len);;
    page_store parrot_message offsetof_message_size (le_bytes sizeof_size_t len);;
    xmp_protect;;
    if decide (error_count ≠ 0) then mret (- EFAULT)
    else
      signed ← xmp_sign_ptr parrot_message THIS_MODULE (parrot_pdomain s);
      modify (set_message signed);;
      mret (to_long len).

(** [parrot_release]. *)
Definition parrot_release : M Z := mret 0.

(** [parrot_init]: the answers of [register_chrdev], [class_create] and
    [device_create] are the environment's. *)
Definition parrot_init (major_res class_res device_res : Z) : M Z :=
  d ← xmp_alloc_pdomain XMP_MAX_PDOMAINS;
  modify (set_pdomain (d mod 2 ^ 16));;
  if decide (d mod 2 ^ 16 = XMP_MAX_PDOMAINS) then mret (- EFAULT)
  else
    emit (EvGlue register_chrdev);;
    modify (set_major (to_int major_res));;
    if decide (to_int major_res < 0) then mret (to_int major_res)
    else
      emit (EvGlue class_create);;
      if IS_ERR class_res then
        emit (EvGlue unregister_chrdev);;
        mret (to_int (PTR_ERR class_res))
      else
        emit (EvGlue device_create);;
        if IS_ERR device_res then
          emit (EvGlue class_destroy);;
          emit (EvGlue unregister_chrdev);;
          mret (to_int (PTR_ERR device_res))
        else mret 0.

(** [parrot_exit]. *)
Definition parrot_exit : M unit :=
  s ← get;
  r ← xmp_auth_ptr (message s) THIS_MODULE (parrot_pdomain s);
  addr ← as_address r;
  free_pages addr;;
  xmp_free_pdomain (parrot_pdomain s);;
  emit (EvGlue device_destroy);;
  emit (EvGlue class_unregister);;
  emit (EvGlue class_destroy);;
  emit (EvGlue unregister_chrdev).

End Parrot.

(** A call into the module, with what the environment answers to it. *)
Inductive call :=
| CallInit (major_res class_res device_res : Z)
| CallOpen
| CallRead (room len : Z)
| CallWrite (fresh : Z) (buffer : list byte) (len : Z)
| CallRelease
| CallExit.

Definition run_call (ctx max_pdomains : Z) (c : call) : M unit :=
  match c with
  | CallInit major_res class_res device_res =>
      parrot_init max_pdomains major_res class_res device_res;; mret ()
  | CallOpen => parrot_open;; mret ()
  | CallRead room len => parrot_read ctx room len;; mret ()
  | CallWrite fresh buffer len => parrot_write ctx fresh buffer len;; mret ()
  | CallRelease => parrot_release;; mret ()
  | CallExit => parrot_exit ctx
  end.

(** A sequence of calls, one after the other; a fault ends it. *)
Fixpoint run_calls (ctx max_pdomains : Z) (cs : list call) : M unit :=
  match cs with
  | [] => mret ()
  | c :: cs' => run_call ctx max_pdomains c;; run_calls ctx max_pdomains cs'
  end.

(** ** A concrete machine for the examples *)

Module Demo.
Definition this_module : Z := 0xffffffffc0a02000.
Definition max_pdomains : Z := 16.
Definition class_ptr : Z := 0xffff888003a41800.
Definition device_ptr : Z := 0xffff888003a42000.
Definition page1 : Z := 0xffff888000100000.
Definition page2 : Z := 0xffff888000200000.

(** The bytes of an ASCII string. *)
Definition hello : list byte := [x68; x65; x6c; x6c; x6f].

(** Three hundred bytes: more than the [message] field, less than a page. *)
Definition long_message : list byte := replicate 300 x41.

(** Five thousand bytes: more than a page. *)
Definition huge_message : list byte := replicate 5000 x61.

(** The module after [parrot_init] took domain 0. *)
Definition booted : kstate :=
  state_of (parrot_init max_pdomains 250 class_ptr device_ptr (loaded ∅)).

(** The module after a first [write("hello")] on [page1]. *)
Definition after_hello : kstate :=
  state_of (parrot_write this_module page1 hello 5 booted).
End Demo.

(** ** What the operations leave behind *)

(** The [len] bytes [copy_from_user] stores: the readable part of the user
    buffer, then zeros. *)
Definition payload (buffer : list byte) (len : Z) : list byte :=
  take (Z.to_nat len) (buffer ++ replicate (Z.to_nat len) x00).

(** The contents of a fresh page after the two stores of [parrot_write]. *)
Definition written_data (buffer : list byte) (len : Z) : list byte :=
  splice
    (splice (replicate (Z.to_nat PAGE_SIZE) x00) (Z.to_nat offsetof_message)
       (payload buffer len))
    (Z.to_nat offsetof_message_size) (le_bytes sizeof_size_t len).

(** The slot is empty, or holds the module's own capability for a page it
    holds. *)
Definition slot_ready (ctx : Z) (s : kstate) : Prop :=
  match message s with
  | Plain a => a = 0
  | Signed cap =>
      cap = sign (cap_handle cap) ctx (parrot_pdomain s)
      ∧ cap_handle cap ≠ 0
      ∧ is_Some (pages s !! cap_handle cap)
      ∧ parrot_pdomain s ∈ allocated s
  end.

(** The pages left once [parrot_write] has released the previous one. *)
Definition pages_released (s : kstate) : gmap Z page :=
  match message s with
  | Plain _ => pages s
  | Signed cap => delete (cap_handle cap) (pages s)
  end.

(** The calls [parrot_write] makes to release the previous page. *)
Definition release_calls (s : kstate) : list event :=
  match message s with
  | Plain _ => []
  | Signed cap =>
      [EvAuth (message s) (Handle (cap_handle cap)); EvFreePages (cap_handle cap)]
  end.

(** What [copy_from_user] returns to [parrot_write], as [error_count]. *)
Definition copy_failed (buffer : list byte) (len : Z) : bool :=
  bool_decide (to_int (len - Z.min len (Z.of_nat (length buffer))) ≠ 0).

(** The protection discipline of a trace: every [xmp_unprotect] is met
    while protected and closed by an [xmp_protect]; stores to the page
    happen in between, every other call outside.  Returns the mode the
    trace ends in, or [None] when the discipline is broken. *)
Fixpoint discipline (m : prot_mode) (t : list event) : option prot_mode :=
  match t with
  | [] => Some m
  | e :: t' =>
      match e, m with
      | EvUnprotect d, Protected => discipline (Unprotected d) t'
      | EvProtect, Unprotected _ => discipline Protected t'
      | EvCopyFromUser _ _, Unprotected _ => discipline m t'
      | EvStoreSize _ _, Unprotected _ => discipline m t'
      | EvUnprotect _, Unprotected _ => None
      | EvProtect, Protected => None
      | EvCopyFromUser _ _, Protected => None
      | EvStoreSize _ _, Protected => None
      | _, Protected => discipline m t'
      | _, Unprotected _ => None
      end
  end.

(** Started in mode [pre], the computation keeps to the discipline, its
    trace ends in the mode of the state it leaves, and when it returns
    that mode is [post]. *)
Definition tracks {A} (pre : prot_mode) (c : M A) (post : prot_mode) : Prop :=
  ∀ s, mode s = pre →
    discipline pre (trace_of (c s)) = Some (mode (state_of (c s)))
    ∧ ∀ a, result_of (c s) = Ret a → mode (state_of (c s)) = post.

(** The computation leaves the state as it found it. *)
Definition readonly {A} (c : M A) : Prop := ∀ s, state_of (c s) = s.

(** The store as the module keeps it between successful calls: the
    domain is allocated and either the slot is empty and no page is held,
    or the slot holds the capability of the one page held. *)
Definition store_inv (ctx : Z) (s : kstate) : Prop :=
  parrot_pdomain s ∈ allocated s
  ∧ (message s = NULL ∧ pages s = ∅
     ∨ ∃ a, a ≠ 0
         ∧ message s = Signed (sign a ctx (parrot_pdomain s))
         ∧ dom (pages s) = {[a]}).

(** A call that the environment serves in full: an open, a release, or a
    write whose page is granted, whose buffer is readable and whose length
    fits the page. *)
Definition served (c : call) : Prop :=
  match c with
  | CallOpen | CallRelease => True
  | CallWrite fresh buffer len =>
      fresh ≠ 0 ∧ IS_ERR fresh = false
      ∧ 0 ≤ len ≤ Z.of_nat (length buffer) ∧ len ≤ PAGE_SIZE
  | _ => False
  end.

(** The contents of the page after a write of a payload [b] that fits the
    message field: the payload, zeros up to the end of the field, the
    recorded length, zeros up to the end of the page. *)
Definition page_image (b : list byte) : list byte :=
  b ++ replicate (Z.to_nat MESSAGE_LEN - length b) x00
    ++ le_bytes sizeof_size_t (Z.of_nat (length b))
    ++ replicate (Z.to_nat PAGE_SIZE - Z.to_nat MESSAGE_LEN - sizeof_size_t) x00.

(** The calls [parrot_init] makes once the domain is taken, by what
    [register_chrdev], [class_create] and [device_create] answer. *)
Definition registration_calls (major_res class_res device_res : Z) : list event :=
  EvGlue register_chrdev ::
  (if decide (to_int major_res < 0) then []
   else EvGlue class_create ::
        (if IS_ERR class_res then [EvGlue unregister_chrdev]
         else EvGlue device_create ::
              (if IS_ERR device_res
               then [EvGlue class_destroy; EvGlue unregister_chrdev]
               else []))).

(** ** Running the monad *)

Section Runs.
Context {A B : Type}.

Lemma run_bind (m : M A) (f : A → M B) (s : kstate) :
  (m ≫= f) s =
    match m s with
    | (Ret a, s', t) => let '(r, s'', t') := f a s' in (r, s'', t ++ t')
    | (Fault e, s', t) => (Fault e, s', t)
    end.
Proof. reflexivity. Qed.

Lemma run_ret (a : A) (s : kstate) : (mret a : M A) s = (Ret a, s, []).
Proof. reflexivity. Qed.

Lemma run_raise (e : fault) (s : kstate) : raise e s = (@Fault A e, s, []).
Proof. reflexivity. Qed.
End Runs.

Lemma run_get (s : kstate) : get s = (Ret s, s, []).
Proof. reflexivity. Qed.

Lemma run_modify (f : kstate → kstate) (s : kstate) : modify f s = (Ret (), f s, []).
Proof. reflexivity. Qed.

Lemma run_emit (e : event) (s : kstate) : emit e s = (Ret (), s, [e]).
Proof. reflexivity. Qed.

(** One step of symbolic execution: binds and the basic actions. *)
Ltac mstep :=
  repeat (rewrite ?run_bind, ?run_ret, ?run_raise, ?run_get, ?run_modify, ?run_emit;
          cbv beta iota zeta);
  cbn [app fst snd].

(** Field accesses of updated states, without unfolding page contents. *)
Ltac kstate_simpl :=
  unfold set_num_opens, set_major, set_pdomain, set_message, set_pages, set_mode,
    set_allocated;
  cbn [num_opens major parrot_pdomain message pages mode allocated
       pg_domain pg_data zeroed_page id].

Lemma xmp_auth_ptr_run (p : pointer) (ctx d : Z) (s : kstate) :
  xmp_auth_ptr p ctx d s =
    let r := match p with
             | Signed cap => authenticate (allocated s) cap ctx d
             | Plain _ => AuthFailure
             end in
    (Ret r, s, [EvAuth p r]).
Proof. reflexivity. Qed.

Lemma xmp_unprotect_run (d : Z) (s : kstate) :
  xmp_unprotect d s = (Ret (), set_mode (Unprotected d) s, [EvUnprotect d]).
Proof. reflexivity. Qed.

Lemma xmp_protect_run (s : kstate) :
  xmp_protect s = (Ret (), set_mode Protected s, [EvProtect]).
Proof. reflexivity. Qed.

Lemma xmp_sign_ptr_run (a ctx d : Z) (s : kstate) :
  xmp_sign_ptr a ctx d s = (Ret (Signed (sign a ctx d)), s, [EvSign a]).
Proof. reflexivity. Qed.

Lemma free_pages_run (a : Z) (s : kstate) :
  a ≠ 0 → is_Some (pages s !! a) →
  free_pages a s = (Ret (), set_pages (delete a (pages s)) s, [EvFreePages a]).
Proof.
  intros Ha [pg Hpg]. unfold free_pages. mstep.
  rewrite decide_False by done. mstep. rewrite Hpg. by mstep.
Qed.

Lemma get_zeroed_page_run (fresh d : Z) (s : kstate) :
  fresh ≠ 0 →
  get_zeroed_page fresh d s =
    (Ret fresh, set_pages (<[fresh := zeroed_page d]> (pages s)) s, [EvGetPage fresh]).
Proof.
  intros Hf. unfold get_zeroed_page. mstep.
  rewrite decide_False by done. by mstep.
Qed.

Lemma splice_nil (data : list byte) (off : nat) : splice data off [] = data.
Proof. unfold splice. simpl. rewrite Nat.add_0_r. apply take_drop. Qed.

Lemma page_store_run (a off : Z) (bytes : list byte) (s : kstate) (pg : page) :
  pages s !! a = Some pg →
  off + Z.of_nat (length bytes) ≤ PAGE_SIZE →
  mode s = Unprotected (pg_domain pg) →
  page_store a off bytes s =
    (Ret (),
     set_pages (<[a := mkPage (pg_domain pg) (splice (pg_data pg) (Z.to_nat off) bytes)]> (pages s)) s,
     []).
Proof.
  intros Hpg Hlen Hmode. unfold page_store. case_decide as Hnil.
  - subst bytes. mstep. rewrite splice_nil.
    destruct s, pg; simpl in *. unfold set_pages; simpl.
    by rewrite insert_id.
  - mstep. rewrite Hpg. rewrite decide_True by done. rewrite decide_True by done.
    by mstep.
Qed.

Lemma payload_length (buffer : list byte) (len : Z) :
  0 ≤ len → Z.of_nat (length (payload buffer len)) = len.
Proof.
  intros H. unfold payload. rewrite length_take, length_app, length_replicate. lia.
Qed.

Lemma copy_from_user_run (a off : Z) (from : list byte) (n : Z) (s : kstate) (pg : page) :
  pages s !! a = Some pg →
  0 ≤ n → off + n ≤ PAGE_SIZE →
  mode s = Unprotected (pg_domain pg) →
  copy_from_user a off from n s =
    (Ret (n - Z.min n (Z.of_nat (length from))),
     set_pages
       (<[a := mkPage (pg_domain pg) (splice (pg_data pg) (Z.to_nat off) (payload from n))]>
          (pages s)) s,
     [EvCopyFromUser (a + off) n]).
Proof.
  intros Hpg Hn Hlen Hmode. unfold copy_from_user. mstep.
  fold (payload from n).
  rewrite (page_store_run a off (payload from n) s pg)
    by (try done; rewrite payload_length by done; lia).
  by mstep.
Qed.

Lemma to_nat_offsetof_message : Z.to_nat offsetof_message = 0%nat.
Proof. reflexivity. Qed.

Lemma le_bytes_length (w : nat) (n : Z) : length (le_bytes w n) = w.
Proof. revert n. induction w as [|w IH]; intros n; simpl; [done | by rewrite IH]. Qed.

Lemma sign_authenticate_roundtrip_aux (pool : gset Z) (h c d : Z) :
  d ∈ pool → authenticate pool (sign h c d) c d = Handle h.
Proof.
  intros Hd. unfold authenticate, sign; cbn [cap_handle cap_ctx cap_domain cap_tag].
  rewrite decide_True by done. by rewrite decide_True.
Qed.

Section WriteRun.
Variable ctx : Z.

(** The first step of [parrot_write]: the previous page, if any, is
    authenticated and freed. *)
Lemma release_run (s : kstate) :
  slot_ready ctx s →
  (if nonnull (message s) then
     r ← xmp_auth_ptr (message s) ctx (parrot_pdomain s);
     addr ← as_address r;
     free_pages addr
   else mret ()) s
  = (Ret (), set_pages (pages_released s) s, release_calls s).
Proof.
  unfold slot_ready, pages_released, release_calls.
  destruct (message s) as [a|cap] eqn:Hmsg.
  - intros ->. simpl. mstep. by destruct s.
  - intros (Hcap & Hnz & Hpg & Hdom). simpl. mstep.
    rewrite xmp_auth_ptr_run. mstep.
    assert (authenticate (allocated s) cap ctx (parrot_pdomain s)
            = Handle (cap_handle cap)) as ->.
    { destruct cap as [h c d tag]; simpl in *.
      injection Hcap as -> -> ->.
      unfold authenticate; simpl.
      rewrite decide_True by done. by rewrite decide_True. }
    unfold as_address. mstep.
    rewrite free_pages_run by done. by mstep.
Qed.

Lemma parrot_write_run (s : kstate) (fresh : Z) (buffer : list byte) (len : Z) :
  slot_ready ctx s →
  fresh ≠ 0 → IS_ERR fresh = false →
  0 ≤ len ≤ PAGE_SIZE →
  parrot_write ctx fresh buffer len s =
    (Ret (if copy_failed buffer len then - EFAULT else to_long len),
     (if copy_failed buffer len then id
      else set_message (Signed (sign fresh ctx (parrot_pdomain s))))
       (set_mode Protected
          (set_pages
             (<[fresh := mkPage (parrot_pdomain s) (written_data buffer len)]>
                (pages_released s)) s)),
     release_calls s
     ++ [EvGetPage fresh; EvUnprotect (parrot_pdomain s);
         EvCopyFromUser (fresh + offsetof_message) len;
         EvStoreSize (fresh + offsetof_message_size) len; EvProtect]
     ++ (if copy_failed buffer len then [] else [EvSign fresh])).
Proof.
  intros Hslot Hfresh Herr Hlen.
  unfold parrot_write. mstep.
  rewrite (release_run s Hslot). mstep.
  rewrite get_zeroed_page_run by done. mstep. rewrite Herr. mstep.
  rewrite xmp_unprotect_run. mstep.
  erewrite copy_from_user_run; cycle 1.
  { kstate_simpl. apply lookup_insert_eq. }
  { lia. }
  { unfold offsetof_message. lia. }
  { reflexivity. }
  mstep.
  erewrite page_store_run; cycle 1.
  { kstate_simpl. apply lookup_insert_eq. }
  { rewrite le_bytes_length. unfold offsetof_message_size, sizeof_size_t, PAGE_SIZE. lia. }
  { reflexivity. }
  mstep. rewrite xmp_protect_run. mstep.
  unfold copy_failed, written_data.
  case_decide as Hfail.
  - rewrite bool_decide_true by done.
    mstep. kstate_simpl.
    by rewrite !insert_insert_eq.
  - rewrite bool_decide_false by (by intros Hne; apply Hne).
    mstep. rewrite xmp_sign_ptr_run. mstep.
    kstate_simpl. by rewrite !insert_insert_eq.
Qed.
End WriteRun.

Lemma parrot_read_run (ctx : Z) (s : kstate) (room len a : Z) (pg : page) :
  message s = Signed (sign a ctx (parrot_pdomain s)) →
  parrot_pdomain s ∈ allocated s →
  pages s !! a = Some pg →
  x00 ∈ pg_data pg →
  Z.min len (Z.max 0 room) ≤ PAGE_SIZE →
  parrot_read ctx room len s =
    (Ret (if decide (to_int (len - Z.min len (Z.max 0 room)) = 0) then 0 else - EFAULT,
          take (Z.to_nat (Z.min len (Z.max 0 room))) (pg_data pg)),
     s,
     [EvAuth (message s) (Handle a); EvPrintk (cstring (pg_data pg));
      EvCopyToUser (a + offsetof_message) len]).
Proof.
  intros Hmsg Hdom Hpg Hnul Hk.
  unfold parrot_read. mstep. rewrite xmp_auth_ptr_run. mstep.
  rewrite Hmsg.
  rewrite sign_authenticate_roundtrip_aux by done.
  unfold as_address, load_cstring. mstep. rewrite Hpg.
  rewrite to_nat_offsetof_message, drop_0.
  rewrite decide_True by done. mstep.
  unfold copy_to_user, page_load. mstep.
  case_decide as Hk0.
  - mstep. replace (Z.to_nat (Z.min len (Z.max 0 room))) with 0%nat by lia.
    rewrite take_0. by case_decide; mstep.
  - mstep. rewrite Hpg. rewrite decide_True by (unfold offsetof_message; lia).
    mstep. rewrite to_nat_offsetof_message, drop_0.
    by case_decide; mstep.
Qed.

Lemma byte_of_Z_0 : byte_of_Z 0 = x00.
Proof. reflexivity. Qed.

Lemma le_bytes_top (n : Z) :
  0 ≤ n < 2 ^ 56 → le_bytes sizeof_size_t n !! 7%nat = Some x00.
Proof.
  intros Hn. unfold sizeof_size_t. cbn [le_bytes lookup list_lookup].
  rewrite !Z.shiftr_shiftr by lia.
  rewrite Z.shiftr_div_pow2 by lia.
  rewrite Z.div_small by lia. by rewrite byte_of_Z_0.
Qed.

Lemma written_data_nul (buffer : list byte) (len : Z) :
  0 ≤ len ≤ PAGE_SIZE → x00 ∈ written_data buffer len.
Proof.
  intros Hlen. unfold written_data, splice at 1.
  apply elem_of_app; right. apply elem_of_app; left.
  apply (list_elem_of_lookup_2 _ 7%nat). apply le_bytes_top.
  unfold PAGE_SIZE in Hlen. lia.
Qed.

Lemma written_data_prefix (buffer : list byte) :
  Z.of_nat (length buffer) ≤ MESSAGE_LEN →
  take (length buffer) (written_data buffer (Z.of_nat (length buffer))) = buffer.
Proof.
  unfold MESSAGE_LEN. intros Hlen.
  assert (payload buffer (Z.of_nat (length buffer)) = buffer) as Hp.
  { unfold payload. rewrite Nat2Z.id. apply take_app_length. }
  unfold written_data, splice.
  rewrite to_nat_offsetof_message, take_0, Hp. cbn [app Nat.add].
  rewrite take_app_le.
  - rewrite take_take. rewrite Nat.min_l by (unfold offsetof_message_size; lia).
    apply take_app_length.
  - rewrite length_take, length_app, length_drop, length_replicate.
    unfold offsetof_message_size, PAGE_SIZE. lia.
Qed.

(** ** The protection discipline, rule by rule *)

Lemma discipline_app (m : prot_mode) (t1 t2 : list event) :
  discipline m (t1 ++ t2) = discipline m t1 ≫= λ m', discipline m' t2.
Proof.
  revert m. induction t1 as [|e t1 IH]; intros m; [done|].
  destruct e, m; simpl; auto.
Qed.

Section Tracks.
Context {A B : Type}.

Lemma tracks_ret (m : prot_mode) (a : A) : tracks m (mret a) m.
Proof. intros s <-. rewrite run_ret. by split. Qed.

Lemma tracks_raise (m m' : prot_mode) (e : fault) : tracks m (@raise A e) m'.
Proof. intros s <-. rewrite run_raise. by split. Qed.

Lemma tracks_bind (m m1 m2 : prot_mode) (c : M A) (f : A → M B) :
  tracks m c m1 → (∀ a, tracks m1 (f a) m2) → tracks m (c ≫= f) m2.
Proof.
  intros Hc Hf s Hs. destruct (Hc s Hs) as [Ht Hr].
  rewrite run_bind. destruct (c s) as [[[a|e] s'] t] eqn:Hcs.
  - unfold result_of, state_of, trace_of in *; cbn [fst snd] in *.
    specialize (Hr a eq_refl).
    destruct (Hf a s' Hr) as [Ht' Hr'].
    destruct (f a s') as [[r s''] t']; cbn [fst snd] in *.
    split; [|done]. rewrite discipline_app, Ht. simpl. by rewrite Hr.
  - by split.
Qed.
End Tracks.

Lemma tracks_get (m : prot_mode) : tracks m get m.
Proof. intros s <-. rewrite run_get. by split. Qed.

Lemma tracks_modify (m : prot_mode) (f : kstate → kstate) :
  (∀ s, mode (f s) = mode s) → tracks m (modify f) m.
Proof.
  intros Hf s <-. rewrite run_modify. unfold trace_of, state_of, result_of; simpl.
  rewrite Hf. by split.
Qed.

Lemma tracks_emit (m : prot_mode) (e : event) :
  discipline m [e] = Some m → tracks m (emit e) m.
Proof.
  intros He s <-. rewrite run_emit. unfold trace_of, state_of; cbn [fst snd]. by split.
Qed.

Lemma tracks_unprotect (d : Z) : tracks Protected (xmp_unprotect d) (Unprotected d).
Proof. intros s Hs. rewrite xmp_unprotect_run. by split. Qed.

Lemma tracks_protect (d : Z) : tracks (Unprotected d) xmp_protect Protected.
Proof. intros s Hs. rewrite xmp_protect_run. by split. Qed.

(** The rules, applied along the structure of a computation. *)
Ltac tracks_step :=
  lazymatch goal with
  | |- tracks _ (xmp_unprotect _) _ => apply tracks_unprotect
  | |- tracks _ xmp_protect _ => apply tracks_protect
  | |- tracks _ (_ ≫= _) _ => eapply tracks_bind; [|intros ?]
  | |- tracks _ (mret _) _ => apply tracks_ret
  | |- tracks _ (raise _) _ => apply tracks_raise
  | |- tracks _ get _ => apply tracks_get
  | |- tracks _ (modify _) _ => apply tracks_modify; by intros []
  | |- tracks _ (emit _) _ => apply tracks_emit; reflexivity
  | |- tracks _ (if ?c then _ else _) _ => destruct c
  | |- tracks _ (match ?x with _ => _ end) _ => destruct x
  | |- tracks _ (let '(_, _) := ?x in _) _ => destruct x
  end.

Lemma tracks_parrot_write (ctx fresh : Z) (buffer : list byte) (len : Z) :
  tracks Protected (parrot_write ctx fresh buffer len) Protected.
Proof.
  unfold parrot_write, xmp_auth_ptr, as_address, free_pages, get_zeroed_page,
    copy_from_user, page_store, xmp_sign_ptr.
  repeat tracks_step.
Qed.

Lemma tracks_parrot_read (ctx room len : Z) :
  tracks Protected (parrot_read ctx room len) Protected.
Proof.
  unfold parrot_read, xmp_auth_ptr, as_address, load_cstring, copy_to_user, page_load.
  repeat tracks_step.
Qed.

Lemma tracks_parrot_exit (ctx : Z) : tracks Protected (parrot_exit ctx) Protected.
Proof.
  unfold parrot_exit, xmp_auth_ptr, as_address, free_pages, xmp_free_pdomain.
  repeat tracks_step.
Qed.

Lemma tracks_parrot_init (max major_res class_res device_res : Z) :
  tracks Protected (parrot_init max major_res class_res device_res) Protected.
Proof.
  unfold parrot_init, xmp_alloc_pdomain.
  repeat tracks_step.
Qed.

Lemma tracks_parrot_open : tracks Protected parrot_open Protected.
Proof. unfold parrot_open. repeat tracks_step. Qed.

Lemma tracks_parrot_release : tracks Protected parrot_release Protected.
Proof. unfold parrot_release. repeat tracks_step. Qed.

(** Whatever the calls and the answers of the environment, a sequence of
    calls started in Protected keeps to the discipline, and every call
    that returns leaves the mode Protected for the next one. *)
Lemma protected_between_calls (ctx max_pdomains : Z) (cs : list call) :
  tracks Protected (run_calls ctx max_pdomains cs) Protected.
Proof.
  induction cs as [|c cs IH]; cbn [run_calls]; [apply tracks_ret|].
  eapply tracks_bind; [|intros _; exact IH].
  destruct c; cbn [run_call].
  - eapply tracks_bind; [apply tracks_parrot_init | intros _; apply tracks_ret].
  - eapply tracks_bind; [apply tracks_parrot_open | intros _; apply tracks_ret].
  - eapply tracks_bind; [apply tracks_parrot_read | intros _; apply tracks_ret].
  - eapply tracks_bind; [apply tracks_parrot_write | intros _; apply tracks_ret].
  - eapply tracks_bind; [apply tracks_parrot_release | intros _; apply tracks_ret].
  - apply tracks_parrot_exit.
Qed.

(** ** Computations that only read *)

Section Readonly.
Context {A B : Type}.

Lemma readonly_ret (a : A) : readonly (mret a : M A).
Proof. by intros s. Qed.

Lemma readonly_raise (e : fault) : readonly (@raise A e).
Proof. by intros s. Qed.

Lemma readonly_bind (c : M A) (f : A → M B) :
  readonly c → (∀ a, readonly (f a)) → readonly (c ≫= f).
Proof.
  intros Hc Hf s. rewrite run_bind. specialize (Hc s).
  destruct (c s) as [[[a|e] s'] t]; unfold state_of in *; cbn [fst snd] in *; subst s'.
  - specialize (Hf a s). by destruct (f a s) as [[r s''] t'].
  - done.
Qed.
End Readonly.

Lemma readonly_get : readonly get.
Proof. by intros s. Qed.

Lemma readonly_emit (e : event) : readonly (emit e).
Proof. by intros s. Qed.

Ltac readonly_step :=
  lazymatch goal with
  | |- readonly (_ ≫= _) => apply readonly_bind; [|intros ?]
  | |- readonly (mret _) => apply readonly_ret
  | |- readonly (raise _) => apply readonly_raise
  | |- readonly get => apply readonly_get
  | |- readonly (emit _) => apply readonly_emit
  | |- readonly (if ?c then _ else _) => destruct c
  | |- readonly (match ?x with _ => _ end) => destruct x
  | |- readonly (let '(_, _) := ?x in _) => destruct x
  end.

(** [parrot_read] changes nothing in the module or the kernel state,
    whatever it is given and however it ends. *)
Lemma parrot_read_readonly (ctx room len : Z) : readonly (parrot_read ctx room len).
Proof.
  unfold parrot_read, xmp_auth_ptr, as_address, load_cstring, copy_to_user, page_load.
  repeat readonly_step.
Qed.

(** ** The Capability Codec *)

(** C5: for every raw handle h, context c and allocated domain d,
    authenticating the capability made by signing h with (c, d), with the
    same c and d, returns exactly h. *)
Theorem sign_authenticate_roundtrip (pool : gset Z) (h c d : Z) :
  d ∈ pool → authenticate pool (sign h c d) c d = Handle h.
Proof. apply sign_authenticate_roundtrip_aux. Qed.

Lemma sign_authenticate_roundtrip_witness :
  0 ∈ ({[0]} : gset Z)
  ∧ authenticate {[0]} (sign Demo.page1 Demo.this_module 0) Demo.this_module 0
    = Handle Demo.page1.
Proof.
  assert (0 ∈ ({[0]} : gset Z)) as H0 by (vm_compute; reflexivity).
  split; [exact H0 | exact (sign_authenticate_roundtrip {[0]} Demo.page1 Demo.this_module 0 H0)].
Defined.

(** C6: authentication fails with AuthFailure whenever the context or the
    domain presented differs from the one used at signing time; a
    mismatched capability never yields a handle. *)
Theorem authenticate_binding (pool : gset Z) (h c1 c2 d1 d2 : Z) :
  c1 ≠ c2 ∨ d1 ≠ d2 → authenticate pool (sign h c1 d1) c2 d2 = AuthFailure.
Proof.
  intros Hne. unfold authenticate, sign; cbn [cap_handle cap_ctx cap_domain cap_tag].
  rewrite decide_False; [done|]. intros (Hc & Hd & _). by destruct Hne.
Qed.

Lemma authenticate_binding_witness :
  (Demo.this_module ≠ Demo.this_module + 1 ∨ (0 : Z) ≠ 0)
  ∧ authenticate {[0]} (sign Demo.page1 Demo.this_module 0) (Demo.this_module + 1) 0
    = AuthFailure.
Proof.
  assert (Demo.this_module ≠ Demo.this_module + 1 ∨ (0 : Z) ≠ 0) as H0
    by (left; unfold Demo.this_module; lia).
  split; [exact H0 | exact (authenticate_binding {[0]} Demo.page1 _ _ 0 0 H0)].
Defined.

(** A capability whose handle was altered after signing is rejected: the
    tag no longer matches. *)
Lemma authenticate_tampered (pool : gset Z) (h h' c d : Z) :
  h ≠ h' →
  authenticate pool (mkCap h' c d (seal h c d)) c d = AuthFailure.
Proof.
  intros Hne. unfold authenticate; cbn [cap_handle cap_ctx cap_domain cap_tag].
  rewrite decide_False; [done|]. intros (_ & _ & Htag).
  unfold seal in Htag. apply (inj encode) in Htag. congruence.
Qed.

(** ** The Isolated Message Store *)

Lemma to_long_small (n : Z) : 0 ≤ n < 2 ^ 63 → to_long n = n.
Proof.
  intros Hn. unfold to_long. rewrite Z.mod_small by lia. by rewrite decide_True by lia.
Qed.

Lemma to_int_small (n : Z) : 0 ≤ n < 2 ^ 31 → to_int n = n.
Proof.
  intros Hn. unfold to_int. rewrite Z.mod_small by lia. by rewrite decide_True by lia.
Qed.

Lemma copy_complete (buffer : list byte) (len : Z) :
  0 ≤ len ≤ Z.of_nat (length buffer) → copy_failed buffer len = false.
Proof.
  intros Hlen. unfold copy_failed. rewrite Z.min_l by lia.
  rewrite Z.sub_diag. apply bool_decide_false. intros Hne. by apply Hne.
Qed.

Lemma copy_short (buffer : list byte) (len : Z) :
  Z.of_nat (length buffer) < len ≤ PAGE_SIZE → copy_failed buffer len = true.
Proof.
  unfold PAGE_SIZE. intros Hlen. unfold copy_failed. rewrite Z.min_r by lia.
  apply bool_decide_true. rewrite to_int_small by lia. lia.
Qed.

(** C1, as the source has it: for every byte sequence b that fits the
    256-byte message field, a write of b followed by a read that asks
    for as many bytes as b has delivers exactly b to the caller. *)
Theorem write_read_fidelity (ctx : Z) (s : kstate) (fresh room : Z) (b : list byte) :
  Z.of_nat (length b) ≤ MESSAGE_LEN →
  slot_ready ctx s →
  parrot_pdomain s ∈ allocated s →
  fresh ≠ 0 → IS_ERR fresh = false →
  Z.of_nat (length b) ≤ room →
  let len := Z.of_nat (length b) in
  let w := parrot_write ctx fresh b len s in
  result_of w = Ret len
  ∧ ∃ count, result_of (parrot_read ctx room len (state_of w)) = Ret (count, b).
Proof.
  intros Hfit Hslot Hdom Hfresh Herr Hroom len w. unfold MESSAGE_LEN in Hfit.
  assert (0 ≤ len ≤ PAGE_SIZE) as Hlen by (unfold PAGE_SIZE; lia).
  unfold w. rewrite parrot_write_run by done.
  rewrite copy_complete by lia.
  unfold result_of at 1, state_of; cbn [fst snd].
  split; [by rewrite to_long_small by lia|].
  eexists. erewrite parrot_read_run; cycle 1.
  - kstate_simpl. reflexivity.
  - kstate_simpl. exact Hdom.
  - kstate_simpl. apply lookup_insert_eq.
  - cbn [pg_data]. by apply written_data_nul.
  - lia.
  - unfold result_of; cbn [fst snd pg_data].
    replace (Z.min len (Z.max 0 room)) with len by lia.
    unfold len. rewrite Nat2Z.id. rewrite written_data_prefix; [done|].
    unfold MESSAGE_LEN. lia.
Qed.

Lemma write_read_fidelity_witness :
  (Z.of_nat (length Demo.hello) ≤ MESSAGE_LEN
   ∧ slot_ready Demo.this_module Demo.booted
   ∧ parrot_pdomain Demo.booted ∈ allocated Demo.booted
   ∧ Demo.page1 ≠ 0 ∧ IS_ERR Demo.page1 = false
   ∧ Z.of_nat (length Demo.hello) ≤ 5)
  ∧ result_of (parrot_write Demo.this_module Demo.page1 Demo.hello 5 Demo.booted) = Ret 5
  ∧ ∃ count,
      result_of
        (parrot_read Demo.this_module 5 5
           (state_of (parrot_write Demo.this_module Demo.page1 Demo.hello 5 Demo.booted)))
      = Ret (count, Demo.hello).
Proof.
  assert (Z.of_nat (length Demo.hello) ≤ MESSAGE_LEN) as H1 by (vm_compute; discriminate).
  assert (slot_ready Demo.this_module Demo.booted) as H2 by (vm_compute; reflexivity).
  assert (parrot_pdomain Demo.booted ∈ allocated Demo.booted) as H3
    by (vm_compute; reflexivity).
  assert (Demo.page1 ≠ 0) as H4 by (vm_compute; discriminate).
  assert (IS_ERR Demo.page1 = false) as H5 by (vm_compute; reflexivity).
  assert (Z.of_nat (length Demo.hello) ≤ 5) as H6 by (vm_compute; discriminate).
  split; [done|].
  exact (write_read_fidelity Demo.this_module Demo.booted Demo.page1 5 Demo.hello
           H1 H2 H3 H4 H5 H6).
Defined.

(** Whatever [parrot_read] delivers is a prefix of the page that the
    capability in the slot names. *)
Lemma parrot_read_delivers (ctx : Z) (s : kstate) (room len count : Z) (out : list byte) :
  result_of (parrot_read ctx room len s) = Ret (count, out) →
  ∃ cap pg n,
    message s = Signed cap ∧ pages s !! cap_handle cap = Some pg
    ∧ out = take n (pg_data pg).
Proof.
  unfold parrot_read. mstep. rewrite xmp_auth_ptr_run. mstep.
  destruct (message s) as [a|cap]; [by mstep|].
  unfold authenticate. case_decide; [|by mstep]. case_decide; [|by mstep].
  unfold as_address, load_cstring. mstep.
  destruct (pages s !! cap_handle cap) as [pg|] eqn:Hpg; [|by mstep].
  case_decide; [|by mstep]. mstep.
  unfold copy_to_user, page_load. mstep.
  case_decide.
  - mstep. case_decide; mstep; intros [= _ <-]; by exists cap, pg, 0%nat.
  - mstep. rewrite Hpg. case_decide; [|by mstep]. mstep.
    rewrite to_nat_offsetof_message, drop_0.
    case_decide; mstep; intros [= _ <-]; by eexists cap, pg, _.
Qed.

(** C1 as stated fails: a payload of 300 bytes is within the page size
    and the write accepts it, but no read gives it back, whatever length
    it asks for: the byte at offset 256 of the page is the low byte of the
    stored length. *)
Lemma fidelity_fails_past_message_field :
  let w := parrot_write Demo.this_module Demo.page1 Demo.long_message 300 Demo.booted in
  Z.of_nat (length Demo.long_message) ≤ PAGE_SIZE
  ∧ result_of w = Ret 300
  ∧ (∃ count out,
       result_of (parrot_read Demo.this_module 300 300 (state_of w)) = Ret (count, out)
       ∧ out !! 256%nat = Some x2c
       ∧ Demo.long_message !! 256%nat = Some x41)
  ∧ ∀ room len count,
      result_of (parrot_read Demo.this_module room len (state_of w))
      ≠ Ret (count, Demo.long_message).
Proof.
  cbv zeta. split; [vm_compute; discriminate|].
  split; [vm_compute; reflexivity|].
  split.
  { eexists _, _. split_and!; vm_compute; reflexivity. }
  intros room len count Hread.
  apply parrot_read_delivers in Hread as (cap & pg & n & Hmsg & Hpg & Hout).
  assert (cap_handle cap = Demo.page1) as Hcap.
  { vm_compute in Hmsg. by injection Hmsg as <-. }
  rewrite Hcap in Hpg.
  assert (pg_data pg !! 256%nat = Some x2c) as Hbyte.
  { vm_compute in Hpg. injection Hpg as <-. vm_compute. reflexivity. }
  apply (f_equal (λ l : list byte, l !! 256%nat)) in Hout.
  destruct (decide (256 < n)%nat).
  - rewrite lookup_take_lt, Hbyte in Hout by done. vm_compute in Hout. discriminate.
  - rewrite lookup_take_ge in Hout by lia. vm_compute in Hout. discriminate.
Qed.

(** C2, evaluated on the source: with an empty slot, [parrot_read] hands
    [NULL] to [xmp_auth_ptr] and goes on to use what comes back as the
    address of the message; there is no test of the slot and no path that
    reports a missing message. *)
Theorem read_of_empty_slot (ctx : Z) (s : kstate) (room len : Z) :
  parrot_read ctx room len (set_message NULL s)
  = (Fault (BadPointer AuthFailure), set_message NULL s, [EvAuth NULL AuthFailure]).
Proof.
  unfold parrot_read. mstep. rewrite xmp_auth_ptr_run. kstate_simpl. by mstep.
Qed.

(** C9, evaluated on the source: with an empty slot, [parrot_exit] hands
    [NULL] to [xmp_auth_ptr] and passes what comes back to [free_pages];
    the slot is not tested, unlike in [parrot_write]. *)
Theorem exit_of_empty_slot (ctx : Z) (s : kstate) :
  parrot_exit ctx (set_message NULL s)
  = (Fault (BadPointer AuthFailure), set_message NULL s, [EvAuth NULL AuthFailure]).
Proof.
  unfold parrot_exit. mstep. rewrite xmp_auth_ptr_run. kstate_simpl. by mstep.
Qed.

(** With a message in the slot, [parrot_exit] authenticates the
    capability, frees the page and then frees the domain. *)
Lemma parrot_exit_run (ctx : Z) (s : kstate) (a : Z) :
  message s = Signed (sign a ctx (parrot_pdomain s)) →
  a ≠ 0 → is_Some (pages s !! a) →
  parrot_pdomain s ∈ allocated s →
  parrot_exit ctx s =
    (Ret (),
     set_allocated (allocated s ∖ {[parrot_pdomain s]}) (set_pages (delete a (pages s)) s),
     [EvAuth (message s) (Handle a); EvFreePages a; EvFreeDomain (parrot_pdomain s);
      EvGlue device_destroy; EvGlue class_unregister; EvGlue class_destroy;
      EvGlue unregister_chrdev]).
Proof.
  intros Hmsg Ha Hpg Hdom. unfold parrot_exit. mstep.
  rewrite xmp_auth_ptr_run. mstep. rewrite Hmsg.
  rewrite sign_authenticate_roundtrip_aux by done.
  unfold as_address. mstep. rewrite free_pages_run by done. mstep.
  unfold xmp_free_pdomain. by mstep.
Qed.

(** C3, evaluated on the source: a write of 5000 bytes over a stored
    message is not rejected.  The previous page is freed, a new page is
    allocated and unprotected, and [copy_from_user] is asked to store 5000
    bytes into it, 904 more than the page holds; the slot still names the
    freed page. *)
Theorem oversize_write_is_not_rejected :
  let w := parrot_write Demo.this_module Demo.page2 Demo.huge_message 5000 Demo.after_hello in
  PAGE_SIZE < Z.of_nat (length Demo.huge_message)
  ∧ result_of w = Fault (OutOfPage Demo.page2 0 5000)
  ∧ trace_of w
    = [EvAuth (message Demo.after_hello) (Handle Demo.page1); EvFreePages Demo.page1;
       EvGetPage Demo.page2; EvUnprotect 0; EvCopyFromUser Demo.page2 5000]
  ∧ message (state_of w) = message Demo.after_hello
  ∧ pages Demo.after_hello !! Demo.page1 ≠ None
  ∧ pages (state_of w) !! Demo.page1 = None
  ∧ mode (state_of w) = Unprotected 0.
Proof.
  cbv zeta. split_and!; try (vm_compute; reflexivity).
  vm_compute. discriminate.
Qed.

(** C4, evaluated on the source: after [write("hello")] the page records
    the length 5, yet a read copies the number of bytes its caller asks
    for (eight: the message and three zero bytes; two: "he") and returns
    0 as its count.  The state is left as it was. *)
Theorem read_copies_the_callers_length :
  pages Demo.after_hello !! Demo.page1
  = Some (mkPage 0 (written_data Demo.hello 5))
  ∧ written_data Demo.hello 5 !! 256%nat = Some x05
  ∧ result_of (parrot_read Demo.this_module 8 8 Demo.after_hello)
    = Ret (0, Demo.hello ++ [x00; x00; x00])
  ∧ result_of (parrot_read Demo.this_module 2 2 Demo.after_hello) = Ret (0, [x68; x65])
  ∧ state_of (parrot_read Demo.this_module 8 8 Demo.after_hello) = Demo.after_hello.
Proof.
  split_and!; [vm_compute; reflexivity .. | apply parrot_read_readonly].
Qed.

(** C7, as the source has it: two successive successful writes leave
    exactly one live page; the second write authenticates the previous
    capability and frees its page exactly once, before it allocates the
    new page.  Nothing revokes the first capability: it still
    authenticates afterwards, to the address of the freed page. *)
Theorem replacement_frees_once
    (ctx : Z) (s : kstate) (fresh1 fresh2 : Z) (b1 b2 : list byte) (len1 len2 : Z) :
  message s = NULL → pages s = ∅ →
  parrot_pdomain s ∈ allocated s →
  fresh1 ≠ 0 → IS_ERR fresh1 = false →
  fresh2 ≠ 0 → IS_ERR fresh2 = false →
  0 ≤ len1 ≤ Z.of_nat (length b1) → len1 ≤ PAGE_SIZE →
  0 ≤ len2 ≤ Z.of_nat (length b2) → len2 ≤ PAGE_SIZE →
  let w1 := parrot_write ctx fresh1 b1 len1 s in
  let w2 := parrot_write ctx fresh2 b2 len2 (state_of w1) in
  result_of w1 = Ret len1
  ∧ result_of w2 = Ret len2
  ∧ dom (pages (state_of w2)) = {[fresh2]}
  ∧ trace_of w2
    = [EvAuth (message (state_of w1)) (Handle fresh1); EvFreePages fresh1;
       EvGetPage fresh2; EvUnprotect (parrot_pdomain s);
       EvCopyFromUser (fresh2 + offsetof_message) len2;
       EvStoreSize (fresh2 + offsetof_message_size) len2; EvProtect; EvSign fresh2]
  ∧ result_of (xmp_auth_ptr (message (state_of w1)) ctx (parrot_pdomain s) (state_of w2))
    = Ret (Handle fresh1).
Proof.
  intros Hmsg Hpages Hdom Hf1 He1 Hf2 He2 Hl1 Hp1 Hl2 Hp2 w1 w2.
  assert (slot_ready ctx s) as Hslot by (unfold slot_ready; by rewrite Hmsg).
  assert (w1 = (Ret len1,
                set_message (Signed (sign fresh1 ctx (parrot_pdomain s)))
                  (set_mode Protected
                     (set_pages {[fresh1 := mkPage (parrot_pdomain s) (written_data b1 len1)]} s)),
                [EvGetPage fresh1; EvUnprotect (parrot_pdomain s);
                 EvCopyFromUser (fresh1 + offsetof_message) len1;
                 EvStoreSize (fresh1 + offsetof_message_size) len1; EvProtect;
                 EvSign fresh1])) as Hw1.
  { unfold w1. rewrite parrot_write_run by (done || lia).
    rewrite copy_complete by lia.
    unfold pages_released, release_calls. rewrite Hmsg, Hpages. cbn [app NULL].
    rewrite insert_empty. rewrite to_long_small; [done|]. unfold PAGE_SIZE in *. lia. }
  assert (slot_ready ctx (state_of w1)) as Hslot1.
  { rewrite Hw1. unfold slot_ready, state_of; cbn [fst snd]. kstate_simpl.
    cbn [sign cap_handle]. split_and!; try done.
    rewrite lookup_singleton_eq. by eexists. }
  unfold w2. rewrite parrot_write_run by (done || lia).
  rewrite copy_complete by lia.
  rewrite Hw1. unfold result_of, state_of, trace_of; cbn [fst snd].
  unfold pages_released, release_calls. kstate_simpl. cbn [sign cap_handle app].
  split; [done|]. split; [rewrite to_long_small; [done|unfold PAGE_SIZE in *; lia]|].
  split.
  { rewrite dom_insert_L, dom_delete_L, dom_singleton_L.
    by rewrite difference_diag_L, union_empty_r_L. }
  split; [done|].
  rewrite xmp_auth_ptr_run. cbv zeta. kstate_simpl. cbn [fst].
  fold (sign fresh1 ctx (parrot_pdomain s)).
  by rewrite sign_authenticate_roundtrip_aux.
Qed.

Lemma replacement_frees_once_witness :
  (message Demo.booted = NULL ∧ pages Demo.booted = ∅
   ∧ parrot_pdomain Demo.booted ∈ allocated Demo.booted
   ∧ Demo.page1 ≠ 0 ∧ IS_ERR Demo.page1 = false
   ∧ Demo.page2 ≠ 0 ∧ IS_ERR Demo.page2 = false
   ∧ 0 ≤ 5 ≤ Z.of_nat (length Demo.hello) ∧ 5 ≤ PAGE_SIZE
   ∧ 0 ≤ 1 ≤ Z.of_nat (length [x79]) ∧ 1 ≤ PAGE_SIZE)
  ∧ dom (pages (state_of (parrot_write Demo.this_module Demo.page2 [x79] 1 Demo.after_hello)))
    = {[Demo.page2]}.
Proof.
  assert (message Demo.booted = NULL) as H1 by (vm_compute; reflexivity).
  assert (pages Demo.booted = ∅) as H2 by (vm_compute; reflexivity).
  assert (parrot_pdomain Demo.booted ∈ allocated Demo.booted) as H3
    by (vm_compute; reflexivity).
  assert (Demo.page1 ≠ 0) as H4 by (vm_compute; discriminate).
  assert (IS_ERR Demo.page1 = false) as H5 by (vm_compute; reflexivity).
  assert (Demo.page2 ≠ 0) as H6 by (vm_compute; discriminate).
  assert (IS_ERR Demo.page2 = false) as H7 by (vm_compute; reflexivity).
  assert (0 ≤ 5 ≤ Z.of_nat (length Demo.hello)) as H8 by (simpl; lia).
  assert (5 ≤ PAGE_SIZE) as H9 by (unfold PAGE_SIZE; lia).
  assert (0 ≤ 1 ≤ Z.of_nat (length [x79])) as H10 by (simpl; lia).
  assert (1 ≤ PAGE_SIZE) as H11 by (unfold PAGE_SIZE; lia).
  split; [done|].
  exact (proj1 (proj2 (proj2
    (replacement_frees_once Demo.this_module Demo.booted Demo.page1 Demo.page2
       Demo.hello [x79] 5 1 H1 H2 H3 H4 H5 H6 H7 H8 H9 H10 H11)))).
Defined.

(** C7 as stated fails: after [write("hello")] and a second write, the
    capability stored by the first write still authenticates. *)
Lemma first_capability_survives_replacement :
  let w2 := parrot_write Demo.this_module Demo.page2 [x79] 1 Demo.after_hello in
  result_of (parrot_write Demo.this_module Demo.page1 Demo.hello 5 Demo.booted) = Ret 5
  ∧ result_of w2 = Ret 1
  ∧ message Demo.after_hello = Signed (sign Demo.page1 Demo.this_module 0)
  ∧ result_of (xmp_auth_ptr (message Demo.after_hello) Demo.this_module 0 (state_of w2))
    = Ret (Handle Demo.page1)
  ∧ authenticate (allocated (state_of w2)) (sign Demo.page1 Demo.this_module 0)
      Demo.this_module 0
    ≠ AuthFailure.
Proof.
  cbv zeta. split_and!; try (vm_compute; reflexivity).
  vm_compute. discriminate.
Qed.

(** C8: started with the protection mode Protected, [parrot_write] keeps
    to the protection discipline (its one [xmp_unprotect] is followed by
    the copy-in, the store of the length and [xmp_protect], and nothing
    else happens in between) and is back in Protected when it returns;
    the other operations never leave Protected. *)
Theorem unprotect_is_paired (ctx max_pdomains : Z) (s : kstate) :
  mode s = Protected →
  (∀ fresh buffer len,
     let w := parrot_write ctx fresh buffer len s in
     discipline Protected (trace_of w) = Some (mode (state_of w))
     ∧ ∀ v, result_of w = Ret v → mode (state_of w) = Protected)
  ∧ (∀ room len,
       let r := parrot_read ctx room len s in
       discipline Protected (trace_of r) = Some Protected
       ∧ mode (state_of r) = Protected)
  ∧ (∀ v, result_of (parrot_open s) = Ret v → mode (state_of (parrot_open s)) = Protected)
  ∧ (∀ v, result_of (parrot_release s) = Ret v
          → mode (state_of (parrot_release s)) = Protected)
  ∧ (∀ major_res class_res device_res v,
       let i := parrot_init max_pdomains major_res class_res device_res s in
       result_of i = Ret v → mode (state_of i) = Protected)
  ∧ (∀ v, result_of (parrot_exit ctx s) = Ret v
          → mode (state_of (parrot_exit ctx s)) = Protected).
Proof.
  intros Hs. split_and!.
  - intros fresh buffer len. exact (tracks_parrot_write ctx fresh buffer len s Hs).
  - intros room len r.
    destruct (tracks_parrot_read ctx room len s Hs) as [Ht _].
    unfold r in *. rewrite parrot_read_readonly in *. by rewrite Hs in *.
  - apply (tracks_parrot_open s Hs).
  - apply (tracks_parrot_release s Hs).
  - intros a b c v. apply (tracks_parrot_init max_pdomains a b c s Hs).
  - apply (tracks_parrot_exit ctx s Hs).
Qed.

Lemma unprotect_is_paired_witness :
  mode Demo.after_hello = Protected
  ∧ result_of (parrot_write Demo.this_module Demo.page2 [x79] 1 Demo.after_hello) = Ret 1
  ∧ mode (state_of (parrot_write Demo.this_module Demo.page2 [x79] 1 Demo.after_hello))
    = Protected.
Proof.
  assert (mode Demo.after_hello = Protected) as H1 by (vm_compute; reflexivity).
  assert (result_of (parrot_write Demo.this_module Demo.page2 [x79] 1 Demo.after_hello)
          = Ret 1) as H2 by (vm_compute; reflexivity).
  split; [exact H1|]. split; [exact H2|].
  exact (proj2 (proj1 (unprotect_is_paired Demo.this_module Demo.max_pdomains
                         Demo.after_hello H1) Demo.page2 [x79] 1) 1 H2).
Defined.

(** C10: when the copy from the user buffer falls short in a write that
    replaces a message, [parrot_write] returns [-EFAULT] and leaves the
    slot as it was: it still holds the capability of the page freed at
    the start of the call, and the page just allocated is held but
    neither signed nor stored. *)
Theorem failed_copy_keeps_stale_capability
    (ctx : Z) (s : kstate) (a fresh : Z) (buffer : list byte) (len : Z) :
  message s = Signed (sign a ctx (parrot_pdomain s)) →
  a ≠ 0 → is_Some (pages s !! a) →
  parrot_pdomain s ∈ allocated s →
  fresh ≠ 0 → IS_ERR fresh = false →
  Z.of_nat (length buffer) < len ≤ PAGE_SIZE →
  let w := parrot_write ctx fresh buffer len s in
  result_of w = Ret (- EFAULT)
  ∧ message (state_of w) = message s
  ∧ trace_of w
    = [EvAuth (message s) (Handle a); EvFreePages a; EvGetPage fresh;
       EvUnprotect (parrot_pdomain s); EvCopyFromUser (fresh + offsetof_message) len;
       EvStoreSize (fresh + offsetof_message_size) len; EvProtect]
  ∧ is_Some (pages (state_of w) !! fresh)
  ∧ (fresh ≠ a → pages (state_of w) !! a = None).
Proof.
  intros Hmsg Ha Hpg Hdom Hfresh Herr Hlen w.
  assert (slot_ready ctx s) as Hslot.
  { unfold slot_ready. rewrite Hmsg. by cbn [sign cap_handle]. }
  unfold w. rewrite parrot_write_run by (done || lia).
  rewrite copy_short by done.
  unfold result_of, state_of, trace_of; cbn [fst snd id]. kstate_simpl.
  unfold pages_released, release_calls. rewrite Hmsg. cbn [sign cap_handle app].
  split_and!; try done.
  - rewrite lookup_insert_eq. by eexists.
  - intros Hne. rewrite lookup_insert_ne by done. apply lookup_delete_eq.
Qed.

Lemma failed_copy_keeps_stale_capability_witness :
  (message Demo.after_hello
   = Signed (sign Demo.page1 Demo.this_module (parrot_pdomain Demo.after_hello))
   ∧ Demo.page1 ≠ 0 ∧ is_Some (pages Demo.after_hello !! Demo.page1)
   ∧ parrot_pdomain Demo.after_hello ∈ allocated Demo.after_hello
   ∧ Demo.page2 ≠ 0 ∧ IS_ERR Demo.page2 = false
   ∧ Z.of_nat (length Demo.hello) < 8 ≤ PAGE_SIZE)
  ∧ result_of (parrot_write Demo.this_module Demo.page2 Demo.hello 8 Demo.after_hello)
    = Ret (- EFAULT)
  ∧ message (state_of (parrot_write Demo.this_module Demo.page2 Demo.hello 8 Demo.after_hello))
    = message Demo.after_hello.
Proof.
  assert (message Demo.after_hello
          = Signed (sign Demo.page1 Demo.this_module (parrot_pdomain Demo.after_hello)))
    as H1 by (vm_compute; reflexivity).
  assert (Demo.page1 ≠ 0) as H2 by (vm_compute; discriminate).
  assert (is_Some (pages Demo.after_hello !! Demo.page1)) as H3
    by (vm_compute; eexists; reflexivity).
  assert (parrot_pdomain Demo.after_hello ∈ allocated Demo.after_hello) as H4
    by (vm_compute; reflexivity).
  assert (Demo.page2 ≠ 0) as H5 by (vm_compute; discriminate).
  assert (IS_ERR Demo.page2 = false) as H6 by (vm_compute; reflexivity).
  assert (Z.of_nat (length Demo.hello) < 8 ≤ PAGE_SIZE) as H7
    by (unfold PAGE_SIZE; simpl; lia).
  split; [done|].
  pose proof (failed_copy_keeps_stale_capability Demo.this_module Demo.after_hello
                Demo.page1 Demo.page2 Demo.hello 8 H1 H2 H3 H4 H5 H6 H7) as H.
  exact (conj (proj1 H) (proj1 (proj2 H))).
Defined.

(** * Further properties of the module *)

(** ** Integer conversions *)

Lemma to_int_id (n : Z) : - 2 ^ 31 ≤ n < 2 ^ 31 → to_int n = n.
Proof.
  intros Hn. destruct (decide (0 ≤ n)); [apply to_int_small; lia|].
  unfold to_int.
  replace (n mod 2 ^ 32) with (n + 2 ^ 32).
  - rewrite decide_False by lia. lia.
  - apply (Z.mod_unique_pos _ _ (-1)); lia.
Qed.

Lemma PTR_ERR_negative (p : Z) :
  0 ≤ p < 2 ^ 64 → IS_ERR p = true → - MAX_ERRNO ≤ PTR_ERR p < 0.
Proof.
  unfold IS_ERR, PTR_ERR, to_long, MAX_ERRNO. intros Hp Herr.
  apply bool_decide_eq_true in Herr.
  rewrite Z.mod_small by lia. rewrite decide_False by lia. lia.
Qed.

(** ** The domain pool *)

Lemma first_free_range (max_pdomains : Z) (pool : gset Z) :
  0 ≤ max_pdomains → 0 ≤ first_free max_pdomains pool ≤ max_pdomains.
Proof.
  intros Hmax. unfold first_free.
  destruct (list_find _ _) as [[i d]|] eqn:Hfind; [|lia].
  apply list_find_Some in Hfind as (Hd%list_elem_of_lookup_2 & _ & _).
  apply elem_of_seqZ in Hd. lia.
Qed.

Lemma first_free_fresh (max_pdomains : Z) (pool : gset Z) :
  first_free max_pdomains pool < max_pdomains → first_free max_pdomains pool ∉ pool.
Proof.
  unfold first_free.
  destruct (list_find _ _) as [[i d]|] eqn:Hfind; [|lia].
  intros _. by apply list_find_Some in Hfind as (_ & Hd & _).
Qed.

Lemma first_free_exhausted (max_pdomains : Z) (pool : gset Z) :
  first_free max_pdomains pool < max_pdomains
  ↔ ∃ d, 0 ≤ d < max_pdomains ∧ d ∉ pool.
Proof.
  unfold first_free. split.
  - destruct (list_find _ _) as [[i d]|] eqn:Hfind; [|lia].
    intros Hlt. exists d.
    apply list_find_Some in Hfind as (Hd%list_elem_of_lookup_2 & Hfree & _).
    apply elem_of_seqZ in Hd. split; [lia|done].
  - intros (d & Hd & Hfree).
    destruct (list_find _ _) as [[i d']|] eqn:Hfind.
    + apply list_find_Some in Hfind as (Hd'%list_elem_of_lookup_2 & _ & _).
      apply elem_of_seqZ in Hd'. lia.
    + apply list_find_None in Hfind. rewrite Forall_forall in Hfind.
      destruct (Hfind d); [|done]. apply elem_of_seqZ. lia.
Qed.

Lemma xmp_alloc_pdomain_run (max_pdomains : Z) (s : kstate) :
  xmp_alloc_pdomain max_pdomains s =
    (Ret (first_free max_pdomains (allocated s)),
     (if decide (first_free max_pdomains (allocated s) < max_pdomains)
      then set_allocated ({[first_free max_pdomains (allocated s)]} ∪ allocated s) s
      else s),
     [EvAllocDomain (first_free max_pdomains (allocated s))]).
Proof. unfold xmp_alloc_pdomain. mstep. by case_decide; mstep. Qed.

(** ** [parrot_init] *)

(** [parrot_init] in one equation, for a pool size that fits the
    [uint16_t] the domain is kept in. *)
Lemma parrot_init_run (max_pdomains major_res class_res device_res : Z) (s : kstate) :
  0 ≤ max_pdomains < 2 ^ 16 →
  let d := first_free max_pdomains (allocated s) in
  parrot_init max_pdomains major_res class_res device_res s =
    if decide (d < max_pdomains) then
      (Ret (if decide (to_int major_res < 0) then to_int major_res
            else if IS_ERR class_res then to_int (PTR_ERR class_res)
            else if IS_ERR device_res then to_int (PTR_ERR device_res)
            else 0),
       set_major (to_int major_res)
         (set_pdomain d (set_allocated ({[d]} ∪ allocated s) s)),
       EvAllocDomain d :: registration_calls major_res class_res device_res)
    else (Ret (- EFAULT), set_pdomain d s, [EvAllocDomain d]).
Proof.
  intros Hmax d.
  pose proof (first_free_range max_pdomains (allocated s) (proj1 Hmax)) as Hd.
  fold d in Hd.
  unfold parrot_init. mstep. rewrite xmp_alloc_pdomain_run. fold d. mstep.
  rewrite (Z.mod_small d) by lia.
  unfold registration_calls.
  destruct (decide (d < max_pdomains)) as [Hlt|Hge].
  - rewrite decide_False by lia. mstep.
    destruct (decide (to_int major_res < 0)); mstep; [done|].
    destruct (IS_ERR class_res); mstep; [done|].
    by destruct (IS_ERR device_res); mstep.
  - rewrite decide_True by lia. by mstep.
Qed.

(** X1: [parrot_init] never faults and returns 0 or a negative error
    number; it returns 0 exactly when the pool has a free domain,
    [register_chrdev] gives a major number and neither [class_create] nor
    [device_create] gives an error pointer. *)
Theorem init_result (max_pdomains major_res class_res device_res : Z) (s : kstate) :
  0 ≤ max_pdomains < 2 ^ 16 →
  - 2 ^ 31 ≤ major_res < 2 ^ 31 →
  0 ≤ class_res < 2 ^ 64 → 0 ≤ device_res < 2 ^ 64 →
  ∃ v, result_of (parrot_init max_pdomains major_res class_res device_res s) = Ret v
       ∧ v ≤ 0
       ∧ (v = 0 ↔ (∃ d, 0 ≤ d < max_pdomains ∧ d ∉ allocated s)
                  ∧ 0 ≤ major_res
                  ∧ IS_ERR class_res = false ∧ IS_ERR device_res = false).
Proof.
  intros Hmax Hmajor Hclass Hdevice.
  rewrite parrot_init_run by done. rewrite (to_int_id major_res) by done.
  pose proof (first_free_exhausted max_pdomains (allocated s)) as Hex.
  destruct (decide (first_free _ _ < _)) as [Hfree|Hfull]; unfold result_of; cbn [fst];
    eexists; (split; [reflexivity|]).
  - destruct (decide (major_res < 0)); [split; [lia|]; split; [lia|]; intros (_ & ? & _); lia|].
    destruct (IS_ERR class_res) eqn:Hc.
    { pose proof (PTR_ERR_negative class_res Hclass Hc) as Hneg. unfold MAX_ERRNO in Hneg.
      rewrite to_int_id by lia. split; [lia|]. split; [lia|]. by intros (_ & _ & ? & _). }
    destruct (IS_ERR device_res) eqn:Hdv.
    { pose proof (PTR_ERR_negative device_res Hdevice Hdv) as Hneg. unfold MAX_ERRNO in Hneg.
      rewrite to_int_id by lia. split; [lia|]. split; [lia|]. by intros (_ & _ & _ & ?). }
    split; [done|]. split; [|done]. intros _. split_and!; [by apply Hex|lia|done|done].
  - unfold EFAULT. split; [lia|]. split; [lia|]. intros (Hd & _). by apply Hex in Hd.
Qed.

Lemma init_result_witness :
  (0 ≤ Demo.max_pdomains < 2 ^ 16 ∧ - 2 ^ 31 ≤ 250 < 2 ^ 31
   ∧ 0 ≤ Demo.class_ptr < 2 ^ 64 ∧ 0 ≤ Demo.device_ptr < 2 ^ 64)
  ∧ ∃ v, result_of (parrot_init Demo.max_pdomains 250 Demo.class_ptr Demo.device_ptr
                      (loaded ∅)) = Ret v
         ∧ v ≤ 0
         ∧ (v = 0 ↔ (∃ d, 0 ≤ d < Demo.max_pdomains ∧ d ∉ allocated (loaded ∅))
                    ∧ 0 ≤ 250
                    ∧ IS_ERR Demo.class_ptr = false ∧ IS_ERR Demo.device_ptr = false).
Proof.
  assert (0 ≤ Demo.max_pdomains < 2 ^ 16) as H1 by (unfold Demo.max_pdomains; lia).
  assert (- 2 ^ 31 ≤ 250 < 2 ^ 31) as H2 by lia.
  assert (0 ≤ Demo.class_ptr < 2 ^ 64) as H3 by (unfold Demo.class_ptr; lia).
  assert (0 ≤ Demo.device_ptr < 2 ^ 64) as H4 by (unfold Demo.device_ptr; lia).
  split; [done|].
  exact (init_result Demo.max_pdomains 250 Demo.class_ptr Demo.device_ptr (loaded ∅)
           H1 H2 H3 H4).
Defined.

(** X2: when [parrot_init] returns 0, the module owns a domain that was
    free before and is allocated now, the message slot, the pages and the
    protection mode are as they were, and a module loaded with an empty
    slot is in the state that the writes maintain. *)
Theorem init_success (ctx max_pdomains major_res class_res device_res : Z) (s : kstate) :
  0 ≤ max_pdomains < 2 ^ 16 →
  let i := parrot_init max_pdomains major_res class_res device_res s in
  result_of i = Ret 0 →
  0 ≤ parrot_pdomain (state_of i) < max_pdomains
  ∧ (parrot_pdomain (state_of i) ∉ allocated s)
  ∧ allocated (state_of i) = {[parrot_pdomain (state_of i)]} ∪ allocated s
  ∧ message (state_of i) = message s
  ∧ pages (state_of i) = pages s
  ∧ mode (state_of i) = mode s
  ∧ (message s = NULL → pages s = ∅ → store_inv ctx (state_of i)).
Proof.
  intros Hmax i. unfold i. rewrite parrot_init_run by done.
  pose proof (first_free_range max_pdomains (allocated s) (proj1 Hmax)) as Hd.
  destruct (decide (first_free _ _ < _)) as [Hfree|Hfull];
    unfold result_of, state_of; cbn [fst snd]; [|by intros [=]].
  intros _. kstate_simpl. split_and!; try done; [lia|by apply first_free_fresh|].
  intros Hmsg Hpages. split; [apply elem_of_union; left; by apply elem_of_singleton|].
  by left.
Qed.

Lemma init_success_witness :
  ((0 ≤ Demo.max_pdomains < 2 ^ 16)
   ∧ (result_of (parrot_init Demo.max_pdomains 250 Demo.class_ptr Demo.device_ptr (loaded ∅))
      = Ret 0))
  ∧ (parrot_pdomain Demo.booted ∉ allocated (loaded ∅))
  ∧ allocated Demo.booted = {[parrot_pdomain Demo.booted]} ∪ allocated (loaded ∅).
Proof.
  assert (0 ≤ Demo.max_pdomains < 2 ^ 16) as H1 by (unfold Demo.max_pdomains; lia).
  assert (result_of (parrot_init Demo.max_pdomains 250 Demo.class_ptr Demo.device_ptr
                       (loaded ∅)) = Ret 0) as H2 by (vm_compute; reflexivity).
  split; [done|].
  pose proof (init_success Demo.this_module Demo.max_pdomains 250 Demo.class_ptr
                Demo.device_ptr (loaded ∅) H1 H2) as H.
  exact (conj (proj1 (proj2 H)) (proj1 (proj2 (proj2 H)))).
Defined.

(** X3: when [parrot_init] fails after it took a domain (no major number,
    or an error pointer from [class_create] or [device_create]), it undoes
    the registrations made so far, in reverse order, but never gives the
    domain back: the domain stays allocated. *)
Theorem init_failure_keeps_domain
    (max_pdomains major_res class_res device_res : Z) (s : kstate) (v : Z) :
  0 ≤ max_pdomains < 2 ^ 16 →
  first_free max_pdomains (allocated s) < max_pdomains →
  let i := parrot_init max_pdomains major_res class_res device_res s in
  result_of i = Ret v → v ≠ 0 →
  parrot_pdomain (state_of i) = first_free max_pdomains (allocated s)
  ∧ parrot_pdomain (state_of i) ∈ allocated (state_of i)
  ∧ trace_of i
    = EvAllocDomain (parrot_pdomain (state_of i))
      :: registration_calls major_res class_res device_res
  ∧ ∀ d, EvFreeDomain d ∉ trace_of i.
Proof.
  intros Hmax Hfree i. unfold i. rewrite parrot_init_run by done.
  rewrite decide_True by done.
  unfold result_of, state_of, trace_of; cbn [fst snd]. intros _ _. kstate_simpl.
  split_and!; try done; [apply elem_of_union; left; by apply elem_of_singleton|].
  intros d Hin. apply elem_of_cons in Hin as [[=]|Hin].
  unfold registration_calls in Hin.
  repeat (first [ case_decide | case_match ]);
    repeat (apply elem_of_cons in Hin as [[=]|Hin]); by apply elem_of_nil in Hin.
Qed.

Lemma init_failure_keeps_domain_witness :
  ((0 ≤ Demo.max_pdomains < 2 ^ 16)
   ∧ (first_free Demo.max_pdomains (allocated (loaded ∅)) < Demo.max_pdomains)
   ∧ (result_of (parrot_init Demo.max_pdomains 250 (2 ^ 64 - 12) Demo.device_ptr (loaded ∅))
      = Ret (-12))
   ∧ (-12 ≠ 0))
  ∧ trace_of (parrot_init Demo.max_pdomains 250 (2 ^ 64 - 12) Demo.device_ptr (loaded ∅))
    = EvAllocDomain
        (parrot_pdomain
           (state_of
              (parrot_init Demo.max_pdomains 250 (2 ^ 64 - 12) Demo.device_ptr (loaded ∅))))
      :: registration_calls 250 (2 ^ 64 - 12) Demo.device_ptr.
Proof.
  assert (0 ≤ Demo.max_pdomains < 2 ^ 16) as H1 by (unfold Demo.max_pdomains; lia).
  assert (first_free Demo.max_pdomains (allocated (loaded ∅)) < Demo.max_pdomains) as H2
    by (vm_compute; reflexivity).
  assert (result_of (parrot_init Demo.max_pdomains 250 (2 ^ 64 - 12) Demo.device_ptr
                       (loaded ∅)) = Ret (-12)) as H3 by (vm_compute; reflexivity).
  assert (-12 ≠ 0) as H4 by lia.
  split; [done|].
  exact (proj1 (proj2 (proj2
    (init_failure_keeps_domain Demo.max_pdomains 250 (2 ^ 64 - 12) Demo.device_ptr
       (loaded ∅) (-12) H1 H2 H3 H4)))).
Defined.

(** ** Sequences of calls *)

Lemma run_calls_step (ctx max_pdomains : Z) (c : call) (cs : list call)
    (s s' : kstate) (t : list event) :
  run_call ctx max_pdomains c s = (Ret (), s', t) →
  run_calls ctx max_pdomains (c :: cs) s
  = (result_of (run_calls ctx max_pdomains cs s'),
     state_of (run_calls ctx max_pdomains cs s'),
     t ++ trace_of (run_calls ctx max_pdomains cs s')).
Proof.
  intros Hc. cbn [run_calls]. rewrite run_bind, Hc.
  by destruct (run_calls ctx max_pdomains cs s') as [[r s''] t'].
Qed.

Lemma parrot_open_run (s : kstate) :
  parrot_open s = (Ret 0, set_num_opens (to_int (num_opens s + 1)) s, []).
Proof. unfold parrot_open. by mstep. Qed.

(** X4: as long as the counter stays below 2^31, n successive opens all
    return, leave [num_opens] raised by n, and change nothing else in the
    module or the kernel state. *)
Theorem opens_are_counted (ctx max_pdomains : Z) (n : nat) (s : kstate) :
  - 2 ^ 31 ≤ num_opens s →
  num_opens s + Z.of_nat n < 2 ^ 31 →
  run_calls ctx max_pdomains (replicate n CallOpen) s
  = (Ret (), set_num_opens (num_opens s + Z.of_nat n) s, []).
Proof.
  revert s. induction n as [|n IH]; intros s Hlo Hhi.
  - cbn [replicate run_calls]. rewrite run_ret. rewrite Z.add_0_r. by destruct s.
  - cbn [replicate].
    erewrite run_calls_step; cycle 1.
    { cbn [run_call]. mstep. rewrite parrot_open_run. mstep. reflexivity. }
    rewrite to_int_id by lia.
    rewrite IH by (kstate_simpl; lia).
    unfold result_of, state_of, trace_of; cbn [fst snd app]. kstate_simpl.
    do 3 f_equal. lia.
Qed.

Lemma opens_are_counted_witness :
  ((- 2 ^ 31 ≤ num_opens Demo.booted) ∧ (num_opens Demo.booted + Z.of_nat 3 < 2 ^ 31))
  ∧ run_calls Demo.this_module Demo.max_pdomains (replicate 3 CallOpen) Demo.booted
    = (Ret (), set_num_opens (num_opens Demo.booted + Z.of_nat 3) Demo.booted, []).
Proof.
  assert (- 2 ^ 31 ≤ num_opens Demo.booted) as H1 by (vm_compute; discriminate).
  assert (num_opens Demo.booted + Z.of_nat 3 < 2 ^ 31) as H2 by (vm_compute; reflexivity).
  split; [done|].
  exact (opens_are_counted Demo.this_module Demo.max_pdomains 3 Demo.booted H1 H2).
Defined.

(** X5: a sequence of calls started in Protected keeps to the protection
    discipline from its first call to its last, whatever the calls and
    whatever the environment answers, and if all of them return the mode
    is Protected again. *)
Theorem calls_stay_protected (ctx max_pdomains : Z) (cs : list call) (s : kstate) :
  mode s = Protected →
  let r := run_calls ctx max_pdomains cs s in
  discipline Protected (trace_of r) = Some (mode (state_of r))
  ∧ (result_of r = Ret () → mode (state_of r) = Protected).
Proof.
  intros Hs r. destruct (protected_between_calls ctx max_pdomains cs s Hs) as [Ht Hr].
  split; [done|]. apply Hr.
Qed.

Lemma calls_stay_protected_witness :
  mode Demo.booted = Protected
  ∧ discipline Protected
      (trace_of
         (run_calls Demo.this_module Demo.max_pdomains
            [CallOpen; CallWrite Demo.page1 Demo.hello 5; CallRead 8 8;
             CallWrite Demo.page2 Demo.hello 8; CallRelease]
            Demo.booted))
    = Some Protected.
Proof.
  assert (mode Demo.booted = Protected) as H1 by (vm_compute; reflexivity).
  split; [done|].
  pose proof (calls_stay_protected Demo.this_module Demo.max_pdomains
                [CallOpen; CallWrite Demo.page1 Demo.hello 5; CallRead 8 8;
                 CallWrite Demo.page2 Demo.hello 8; CallRelease]
                Demo.booted H1) as [Ht Hr].
  rewrite Ht. vm_compute. reflexivity.
Defined.

(** ** [parrot_read] *)

(** X6: [parrot_read] changes nothing, whatever it is given and however
    it ends (even when it faults), so a read repeated with the same
    arguments does exactly what the first one did. *)
Theorem read_changes_nothing (ctx room len : Z) (s : kstate) :
  state_of (parrot_read ctx room len s) = s
  ∧ parrot_read ctx room len (state_of (parrot_read ctx room len s))
    = parrot_read ctx room len s.
Proof.
  pose proof (parrot_read_readonly ctx room len s) as H.
  split; [done|]. by rewrite H.
Qed.

Lemma splice_length (data : list byte) (off : nat) (bytes : list byte) :
  (off + length bytes ≤ length data)%nat → length (splice data off bytes) = length data.
Proof.
  intros H. unfold splice. rewrite !length_app, length_take, length_drop. lia.
Qed.

Lemma splice_lookup (data : list byte) (off : nat) (bytes : list byte) :
  (off ≤ length data)%nat →
  take (length bytes) (drop off (splice data off bytes)) = bytes.
Proof.
  intros H. unfold splice.
  rewrite drop_app_length' by (rewrite length_take; lia).
  apply take_app_length.
Qed.

Lemma written_data_length (buffer : list byte) (len : Z) :
  0 ≤ len ≤ PAGE_SIZE → length (written_data buffer len) = Z.to_nat PAGE_SIZE.
Proof.
  intros Hlen. unfold written_data.
  pose proof (payload_length buffer len (proj1 Hlen)) as Hp.
  assert (length (splice (replicate (Z.to_nat PAGE_SIZE) x00) (Z.to_nat offsetof_message)
                    (payload buffer len)) = Z.to_nat PAGE_SIZE) as Hinner.
  { rewrite splice_length; rewrite length_replicate; [done|].
    unfold offsetof_message, PAGE_SIZE in *. lia. }
  rewrite splice_length; rewrite Hinner; [done|].
  rewrite le_bytes_length. unfold offsetof_message_size, sizeof_size_t, PAGE_SIZE. lia.
Qed.

Lemma written_data_image (b : list byte) :
  Z.of_nat (length b) ≤ MESSAGE_LEN →
  written_data b (Z.of_nat (length b)) = page_image b.
Proof.
  unfold MESSAGE_LEN. intros Hfit.
  assert (payload b (Z.of_nat (length b)) = b) as Hp.
  { unfold payload. rewrite Nat2Z.id. apply take_app_length. }
  unfold written_data, page_image, splice at 2.
  rewrite Hp, to_nat_offsetof_message, take_0. cbn [app Nat.add].
  rewrite drop_replicate. unfold splice.
  rewrite take_app, drop_app, take_replicate, drop_replicate.
  rewrite (take_ge b) by (unfold offsetof_message_size; lia).
  rewrite (drop_ge b)
    by (rewrite le_bytes_length; unfold offsetof_message_size, sizeof_size_t; lia).
  rewrite le_bytes_length. cbn [app]. rewrite <- (assoc_L (++)).
  unfold offsetof_message_size, MESSAGE_LEN, sizeof_size_t, PAGE_SIZE.
  do 2 f_equal; [f_equal; lia|]. do 2 f_equal. lia.
Qed.

(** X7: after a write of a payload b that fits the message field, a read
    of len bytes, for any len up to the page size, delivers the first len
    bytes of: b, zeros up to offset 256, the eight bytes of the recorded
    length, zeros.  Nothing of an earlier message is ever delivered, and a
    read longer than 256 bytes reaches the length field. *)
Theorem read_after_write (ctx : Z) (s : kstate) (fresh room len : Z) (b : list byte) :
  Z.of_nat (length b) ≤ MESSAGE_LEN →
  slot_ready ctx s →
  parrot_pdomain s ∈ allocated s →
  fresh ≠ 0 → IS_ERR fresh = false →
  0 ≤ len ≤ room → len ≤ PAGE_SIZE →
  let w := parrot_write ctx fresh b (Z.of_nat (length b)) s in
  result_of (parrot_read ctx room len (state_of w))
  = Ret (0, take (Z.to_nat len) (page_image b)).
Proof.
  intros Hfit Hslot Hdom Hfresh Herr Hroom Hlen w. unfold MESSAGE_LEN in Hfit.
  assert (0 ≤ Z.of_nat (length b) ≤ PAGE_SIZE) as Hb by (unfold PAGE_SIZE; lia).
  unfold w. rewrite parrot_write_run by done.
  rewrite copy_complete by lia.
  unfold state_of at 1; cbn [fst snd].
  erewrite parrot_read_run; cycle 1.
  - kstate_simpl. reflexivity.
  - kstate_simpl. exact Hdom.
  - kstate_simpl. apply lookup_insert_eq.
  - cbn [pg_data]. by apply written_data_nul.
  - lia.
  - unfold result_of; cbn [fst snd pg_data].
    replace (Z.min len (Z.max 0 room)) with len by lia.
    rewrite Z.sub_diag, decide_True by done.
    by rewrite written_data_image.
Qed.

Lemma read_after_write_witness :
  ((Z.of_nat (length Demo.hello) ≤ MESSAGE_LEN)
   ∧ slot_ready Demo.this_module Demo.after_hello
   ∧ (parrot_pdomain Demo.after_hello ∈ allocated Demo.after_hello)
   ∧ (Demo.page2 ≠ 0) ∧ (IS_ERR Demo.page2 = false)
   ∧ (0 ≤ 264 ≤ 300) ∧ (264 ≤ PAGE_SIZE))
  ∧ result_of
      (parrot_read Demo.this_module 300 264
         (state_of (parrot_write Demo.this_module Demo.page2 Demo.hello 5 Demo.after_hello)))
    = Ret (0, take 264 (page_image Demo.hello)).
Proof.
  assert (Z.of_nat (length Demo.hello) ≤ MESSAGE_LEN) as H1 by (vm_compute; discriminate).
  assert (slot_ready Demo.this_module Demo.after_hello) as H2.
  { vm_compute. split_and!; [reflexivity|discriminate|by eexists|reflexivity]. }
  assert (parrot_pdomain Demo.after_hello ∈ allocated Demo.after_hello) as H3
    by (vm_compute; reflexivity).
  assert (Demo.page2 ≠ 0) as H4 by (vm_compute; discriminate).
  assert (IS_ERR Demo.page2 = false) as H5 by (vm_compute; reflexivity).
  assert (0 ≤ 264 ≤ 300) as H6 by lia.
  assert (264 ≤ PAGE_SIZE) as H7 by (unfold PAGE_SIZE; lia).
  split; [done|].
  exact (read_after_write Demo.this_module Demo.after_hello Demo.page2 300 264 Demo.hello
           H1 H2 H3 H4 H5 H6 H7).
Defined.

(** X8: when the user buffer has room for fewer bytes than the read asks
    for, [parrot_read] stores the bytes that fit and returns [-EFAULT]. *)
Theorem read_short_buffer (ctx : Z) (s : kstate) (room len a : Z) (pg : page) :
  message s = Signed (sign a ctx (parrot_pdomain s)) →
  parrot_pdomain s ∈ allocated s →
  pages s !! a = Some pg →
  x00 ∈ pg_data pg →
  0 ≤ room < len → len < 2 ^ 31 → room ≤ PAGE_SIZE →
  result_of (parrot_read ctx room len s)
  = Ret (- EFAULT, take (Z.to_nat room) (pg_data pg)).
Proof.
  intros Hmsg Hdom Hpg Hnul Hroom Hlen Hpage.
  rewrite (parrot_read_run ctx s room len a pg) by (done || lia).
  unfold result_of; cbn [fst].
  replace (Z.min len (Z.max 0 room)) with room by lia.
  rewrite to_int_small by lia. by rewrite decide_False by lia.
Qed.

Lemma read_short_buffer_witness :
  ((message Demo.after_hello
    = Signed (sign Demo.page1 Demo.this_module (parrot_pdomain Demo.after_hello)))
   ∧ (parrot_pdomain Demo.after_hello ∈ allocated Demo.after_hello)
   ∧ (pages Demo.after_hello !! Demo.page1 = Some (mkPage 0 (written_data Demo.hello 5)))
   ∧ (x00 ∈ pg_data (mkPage 0 (written_data Demo.hello 5)))
   ∧ (0 ≤ 3 < 5) ∧ (5 < 2 ^ 31) ∧ (3 ≤ PAGE_SIZE))
  ∧ result_of (parrot_read Demo.this_module 3 5 Demo.after_hello)
    = Ret (- EFAULT, take 3 (written_data Demo.hello 5)).
Proof.
  assert (message Demo.after_hello
          = Signed (sign Demo.page1 Demo.this_module (parrot_pdomain Demo.after_hello)))
    as H1 by (vm_compute; reflexivity).
  assert (parrot_pdomain Demo.after_hello ∈ allocated Demo.after_hello) as H2
    by (vm_compute; reflexivity).
  assert (pages Demo.after_hello !! Demo.page1 = Some (mkPage 0 (written_data Demo.hello 5)))
    as H3 by (vm_compute; reflexivity).
  assert (x00 ∈ pg_data (mkPage 0 (written_data Demo.hello 5))) as H4.
  { apply written_data_nul. unfold PAGE_SIZE. lia. }
  assert (0 ≤ 3 < 5) as H5 by lia.
  assert (5 < 2 ^ 31) as H6 by lia.
  assert (3 ≤ PAGE_SIZE) as H7 by (unfold PAGE_SIZE; lia).
  split; [done|].
  exact (read_short_buffer Demo.this_module Demo.after_hello 3 5 Demo.page1 _
           H1 H2 H3 H4 H5 H6 H7).
Defined.

(** X9: [parrot_read] puts no bound on the length it is asked for: with a
    message in the slot and a user buffer large enough, a read of more
    than a page asks [copy_to_user] for bytes beyond the end of the page. *)
Theorem read_past_the_page (ctx : Z) (s : kstate) (room len a : Z) (pg : page) :
  message s = Signed (sign a ctx (parrot_pdomain s)) →
  parrot_pdomain s ∈ allocated s →
  pages s !! a = Some pg →
  x00 ∈ pg_data pg →
  PAGE_SIZE < len ≤ room →
  parrot_read ctx room len s
  = (Fault (OutOfPage a offsetof_message len), s,
     [EvAuth (message s) (Handle a); EvPrintk (cstring (pg_data pg));
      EvCopyToUser (a + offsetof_message) len]).
Proof.
  intros Hmsg Hdom Hpg Hnul Hlen. unfold PAGE_SIZE in Hlen.
  unfold parrot_read. mstep. rewrite xmp_auth_ptr_run. mstep.
  rewrite Hmsg. rewrite sign_authenticate_roundtrip_aux by done.
  unfold as_address, load_cstring. mstep. rewrite Hpg.
  rewrite to_nat_offsetof_message, drop_0.
  rewrite decide_True by done. mstep.
  unfold copy_to_user, page_load. mstep.
  replace (Z.min len (Z.max 0 room)) with len by lia.
  rewrite decide_False by lia. mstep. rewrite Hpg.
  rewrite decide_False by (unfold offsetof_message, PAGE_SIZE; lia). by mstep.
Qed.

Lemma read_past_the_page_witness :
  ((message Demo.after_hello
    = Signed (sign Demo.page1 Demo.this_module (parrot_pdomain Demo.after_hello)))
   ∧ (parrot_pdomain Demo.after_hello ∈ allocated Demo.after_hello)
   ∧ (pages Demo.after_hello !! Demo.page1 = Some (mkPage 0 (written_data Demo.hello 5)))
   ∧ (x00 ∈ pg_data (mkPage 0 (written_data Demo.hello 5)))
   ∧ (PAGE_SIZE < 8192 ≤ 8192))
  ∧ result_of (parrot_read Demo.this_module 8192 8192 Demo.after_hello)
    = Fault (OutOfPage Demo.page1 offsetof_message 8192).
Proof.
  assert (message Demo.after_hello
          = Signed (sign Demo.page1 Demo.this_module (parrot_pdomain Demo.after_hello)))
    as H1 by (vm_compute; reflexivity).
  assert (parrot_pdomain Demo.after_hello ∈ allocated Demo.after_hello) as H2
    by (vm_compute; reflexivity).
  assert (pages Demo.after_hello !! Demo.page1 = Some (mkPage 0 (written_data Demo.hello 5)))
    as H3 by (vm_compute; reflexivity).
  assert (x00 ∈ pg_data (mkPage 0 (written_data Demo.hello 5))) as H4.
  { apply written_data_nul. unfold PAGE_SIZE. lia. }
  assert (PAGE_SIZE < 8192 ≤ 8192) as H5 by (unfold PAGE_SIZE; lia).
  split; [done|].
  exact (f_equal result_of
           (read_past_the_page Demo.this_module Demo.after_hello 8192 8192 Demo.page1 _
              H1 H2 H3 H4 H5)).
Defined.

(** ** [parrot_write] *)

(** X10: whether or not the copy from the user buffer succeeds, a write
    of at most a page leaves the new page in the module's domain, a page
    long, with the requested length recorded in the eight bytes at offset
    256 and, when the length fits the message field, the readable bytes of
    the buffer followed by zeros at offset 0. *)
Theorem write_fills_the_page (ctx : Z) (s : kstate) (fresh : Z) (buffer : list byte) (len : Z) :
  slot_ready ctx s →
  fresh ≠ 0 → IS_ERR fresh = false →
  0 ≤ len ≤ PAGE_SIZE →
  ∃ pg, pages (state_of (parrot_write ctx fresh buffer len s)) !! fresh = Some pg
        ∧ pg_domain pg = parrot_pdomain s
        ∧ length (pg_data pg) = Z.to_nat PAGE_SIZE
        ∧ take sizeof_size_t (drop (Z.to_nat offsetof_message_size) (pg_data pg))
          = le_bytes sizeof_size_t len
        ∧ (len ≤ MESSAGE_LEN →
           take (Z.to_nat len) (pg_data pg)
           = take (Z.to_nat len) (buffer ++ replicate (Z.to_nat len) x00)).
Proof.
  intros Hslot Hfresh Herr Hlen.
  rewrite parrot_write_run by done.
  exists (mkPage (parrot_pdomain s) (written_data buffer len)).
  unfold state_of; cbn [fst snd pg_domain pg_data].
  pose proof (payload_length buffer len (proj1 Hlen)) as Hp.
  split_and!.
  - destruct (copy_failed buffer len); cbn [id]; kstate_simpl; apply lookup_insert_eq.
  - done.
  - by apply written_data_length.
  - unfold written_data.
    rewrite <- (le_bytes_length sizeof_size_t len) at 1.
    apply splice_lookup. rewrite splice_length; rewrite length_replicate;
      unfold offsetof_message, offsetof_message_size, PAGE_SIZE in *; lia.
  - unfold MESSAGE_LEN. intros Hfit. unfold written_data, splice.
    rewrite to_nat_offsetof_message, take_0. cbn [app Nat.add].
    fold (payload buffer len).
    rewrite take_app_le.
    + rewrite take_take, Nat.min_l by (unfold offsetof_message_size; lia).
      rewrite take_app_le by lia. apply take_ge. lia.
    + rewrite length_take, length_app, length_drop, length_replicate.
      unfold offsetof_message_size, PAGE_SIZE in *. lia.
Qed.

Lemma write_fills_the_page_witness :
  (slot_ready Demo.this_module Demo.booted
   ∧ (Demo.page1 ≠ 0) ∧ (IS_ERR Demo.page1 = false) ∧ (0 ≤ 8 ≤ PAGE_SIZE))
  ∧ ∃ pg, pages (state_of (parrot_write Demo.this_module Demo.page1 Demo.hello 8 Demo.booted))
            !! Demo.page1 = Some pg
          ∧ take sizeof_size_t (drop (Z.to_nat offsetof_message_size) (pg_data pg))
            = le_bytes sizeof_size_t 8.
Proof.
  assert (slot_ready Demo.this_module Demo.booted) as H1 by (vm_compute; reflexivity).
  assert (Demo.page1 ≠ 0) as H2 by (vm_compute; discriminate).
  assert (IS_ERR Demo.page1 = false) as H3 by (vm_compute; reflexivity).
  assert (0 ≤ 8 ≤ PAGE_SIZE) as H4 by (unfold PAGE_SIZE; lia).
  split; [done|].
  destruct (write_fills_the_page Demo.this_module Demo.booted Demo.page1 Demo.hello 8
              H1 H2 H3 H4) as (pg & Hpg & _ & _ & Hsize & _).
  by exists pg.
Defined.

(** X11: when the page allocator has no page and answers 0, the
    [IS_ERR] test of [parrot_write] lets the null pointer through: the
    previous page is already freed, the domain is unprotected, and the
    write stores through address 0; it does not return an error. *)
Theorem write_without_a_page (ctx : Z) (s : kstate) (buffer : list byte) (len : Z) :
  slot_ready ctx s →
  pages s !! 0 = None →
  0 ≤ len →
  let w := parrot_write ctx 0 buffer len s in
  result_of w = Fault (NotAPage 0)
  ∧ mode (state_of w) = Unprotected (parrot_pdomain s)
  ∧ message (state_of w) = message s
  ∧ pages (state_of w) = pages_released s.
Proof.
  intros Hslot Hnull Hlen w. unfold w, parrot_write. mstep.
  rewrite (release_run ctx s Hslot). mstep.
  unfold get_zeroed_page. mstep. rewrite decide_True by done. mstep.
  change (IS_ERR 0) with false. mstep.
  rewrite xmp_unprotect_run. mstep.
  assert (pages_released s !! 0 = None) as Hnull'.
  { unfold pages_released. destruct (message s); [done|].
    destruct (decide (cap_handle cap = 0)) as [->|Hne];
      [apply lookup_delete_eq | by rewrite lookup_delete_ne]. }
  unfold copy_from_user, page_store. mstep.
  case_decide as Hnil; mstep; kstate_simpl.
  - rewrite decide_False by done. mstep. kstate_simpl. rewrite Hnull'. by mstep.
  - rewrite Hnull'. by mstep.
Qed.

Lemma write_without_a_page_witness :
  (slot_ready Demo.this_module Demo.after_hello
   ∧ (pages Demo.after_hello !! 0 = None) ∧ (0 ≤ 5))
  ∧ result_of (parrot_write Demo.this_module 0 Demo.hello 5 Demo.after_hello)
    = Fault (NotAPage 0).
Proof.
  assert (slot_ready Demo.this_module Demo.after_hello) as H1.
  { vm_compute. split_and!; [reflexivity|discriminate|by eexists|reflexivity]. }
  assert (pages Demo.after_hello !! 0 = None) as H2 by (vm_compute; reflexivity).
  assert (0 ≤ 5) as H3 by lia.
  split; [done|].
  exact (proj1 (write_without_a_page Demo.this_module Demo.after_hello Demo.hello 5
                  H1 H2 H3)).
Defined.

(** X12: a write into an empty slot whose copy from the user buffer falls
    short returns [-EFAULT] with the slot still empty and the new page
    still held; the next successful write takes another page and does not
    free the first, so two pages are held for one message. *)
Theorem failed_first_write_leaks_a_page
    (ctx : Z) (s : kstate) (fresh1 fresh2 : Z) (b1 b2 : list byte) (len1 len2 : Z) :
  message s = NULL → pages s = ∅ →
  fresh1 ≠ 0 → IS_ERR fresh1 = false →
  fresh2 ≠ 0 → IS_ERR fresh2 = false →
  fresh1 ≠ fresh2 →
  Z.of_nat (length b1) < len1 ≤ PAGE_SIZE →
  0 ≤ len2 ≤ Z.of_nat (length b2) → len2 ≤ PAGE_SIZE →
  let w1 := parrot_write ctx fresh1 b1 len1 s in
  let w2 := parrot_write ctx fresh2 b2 len2 (state_of w1) in
  result_of w1 = Ret (- EFAULT)
  ∧ message (state_of w1) = NULL
  ∧ dom (pages (state_of w1)) = {[fresh1]}
  ∧ result_of w2 = Ret len2
  ∧ message (state_of w2) = Signed (sign fresh2 ctx (parrot_pdomain s))
  ∧ dom (pages (state_of w2)) = {[fresh1; fresh2]}
  ∧ ∀ a, EvFreePages a ∉ trace_of w1 ++ trace_of w2.
Proof.
  intros Hmsg Hpages Hf1 He1 Hf2 He2 Hne Hl1 Hl2 Hp2 w1 w2.
  assert (slot_ready ctx s) as Hslot by (unfold slot_ready; by rewrite Hmsg).
  assert (w1 = (Ret (- EFAULT),
                set_mode Protected
                  (set_pages {[fresh1 := mkPage (parrot_pdomain s) (written_data b1 len1)]} s),
                [EvGetPage fresh1; EvUnprotect (parrot_pdomain s);
                 EvCopyFromUser (fresh1 + offsetof_message) len1;
                 EvStoreSize (fresh1 + offsetof_message_size) len1; EvProtect])) as Hw1.
  { unfold w1. rewrite parrot_write_run by (done || lia).
    rewrite copy_short by done.
    unfold pages_released, release_calls. rewrite Hmsg, Hpages. cbn [app NULL id].
    by rewrite insert_empty. }
  assert (slot_ready ctx (state_of w1)) as Hslot1.
  { rewrite Hw1. unfold slot_ready, state_of; cbn [fst snd]. kstate_simpl.
    by rewrite Hmsg. }
  unfold w2. rewrite parrot_write_run by (done || lia).
  rewrite copy_complete by lia.
  rewrite Hw1. unfold result_of, state_of, trace_of; cbn [fst snd].
  unfold pages_released, release_calls. kstate_simpl. rewrite Hmsg. cbn [NULL app].
  split_and!; try done.
  - by rewrite dom_singleton_L.
  - rewrite to_long_small; [done|]. unfold PAGE_SIZE in *. lia.
  - rewrite dom_insert_L, dom_singleton_L.
    apply set_eq. intros x. rewrite !elem_of_union, !elem_of_singleton. tauto.
  - intros a Hin.
    repeat (apply elem_of_cons in Hin as [[=]|Hin]). by apply elem_of_nil in Hin.
Qed.

Lemma failed_first_write_leaks_a_page_witness :
  ((message Demo.booted = NULL) ∧ (pages Demo.booted = ∅)
   ∧ (Demo.page1 ≠ 0) ∧ (IS_ERR Demo.page1 = false)
   ∧ (Demo.page2 ≠ 0) ∧ (IS_ERR Demo.page2 = false)
   ∧ (Demo.page1 ≠ Demo.page2)
   ∧ (Z.of_nat (length Demo.hello) < 8 ≤ PAGE_SIZE)
   ∧ (0 ≤ 5 ≤ Z.of_nat (length Demo.hello)) ∧ (5 ≤ PAGE_SIZE))
  ∧ dom (pages
           (state_of
              (parrot_write Demo.this_module Demo.page2 Demo.hello 5
                 (state_of
                    (parrot_write Demo.this_module Demo.page1 Demo.hello 8 Demo.booted)))))
    = {[Demo.page1; Demo.page2]}.
Proof.
  assert (message Demo.booted = NULL) as H1 by (vm_compute; reflexivity).
  assert (pages Demo.booted = ∅) as H2 by (vm_compute; reflexivity).
  assert (Demo.page1 ≠ 0) as H3 by (vm_compute; discriminate).
  assert (IS_ERR Demo.page1 = false) as H4 by (vm_compute; reflexivity).
  assert (Demo.page2 ≠ 0) as H5 by (vm_compute; discriminate).
  assert (IS_ERR Demo.page2 = false) as H6 by (vm_compute; reflexivity).
  assert (Demo.page1 ≠ Demo.page2) as H7 by (vm_compute; discriminate).
  assert (Z.of_nat (length Demo.hello) < 8 ≤ PAGE_SIZE) as H8
    by (unfold PAGE_SIZE; simpl; lia).
  assert (0 ≤ 5 ≤ Z.of_nat (length Demo.hello)) as H9 by (simpl; lia).
  assert (5 ≤ PAGE_SIZE) as H10 by (unfold PAGE_SIZE; lia).
  split; [done|].
  pose proof (failed_first_write_leaks_a_page Demo.this_module Demo.booted Demo.page1
                Demo.page2 Demo.hello Demo.hello 8 5 H1 H2 H3 H4 H5 H6 H7 H8 H9 H10) as H.
  exact (proj1 (proj2 (proj2 (proj2 (proj2 (proj2 H)))))).
Defined.

(** X13: after a replacing write whose copy fell short, the slot names a
    page that is no longer held; unless the allocator handed that very
    address out again, the next write authenticates the stale capability
    and frees the page a second time. *)
Theorem stale_capability_is_freed_twice
    (ctx : Z) (s : kstate) (a fresh1 fresh2 : Z) (b1 b2 : list byte) (len1 len2 : Z) :
  message s = Signed (sign a ctx (parrot_pdomain s)) →
  a ≠ 0 → is_Some (pages s !! a) →
  parrot_pdomain s ∈ allocated s →
  fresh1 ≠ 0 → IS_ERR fresh1 = false → fresh1 ≠ a →
  Z.of_nat (length b1) < len1 ≤ PAGE_SIZE →
  let w1 := parrot_write ctx fresh1 b1 len1 s in
  let w2 := parrot_write ctx fresh2 b2 len2 (state_of w1) in
  EvFreePages a ∈ trace_of w1
  ∧ result_of w2 = Fault (NotAPage a)
  ∧ trace_of w2 = [EvAuth (message s) (Handle a); EvFreePages a]
  ∧ state_of w2 = state_of w1.
Proof.
  intros Hmsg Ha Hpg Hdom Hf1 He1 Hne Hl1 w1 w2.
  assert (slot_ready ctx s) as Hslot.
  { unfold slot_ready. rewrite Hmsg. by cbn [sign cap_handle]. }
  assert (w1 = (Ret (- EFAULT),
                set_mode Protected
                  (set_pages (<[fresh1 := mkPage (parrot_pdomain s) (written_data b1 len1)]>
                                (delete a (pages s))) s),
                [EvAuth (message s) (Handle a); EvFreePages a; EvGetPage fresh1;
                 EvUnprotect (parrot_pdomain s);
                 EvCopyFromUser (fresh1 + offsetof_message) len1;
                 EvStoreSize (fresh1 + offsetof_message_size) len1; EvProtect])) as Hw1.
  { unfold w1. rewrite parrot_write_run by (done || lia).
    rewrite copy_short by done.
    unfold pages_released, release_calls. rewrite Hmsg. by cbn [sign cap_handle app id]. }
  unfold w2. rewrite Hw1. unfold result_of, state_of, trace_of; cbn [fst snd].
  split; [apply elem_of_cons; right; apply elem_of_cons; by left|].
  unfold parrot_write. mstep. kstate_simpl. rewrite Hmsg. cbn [nonnull]. mstep.
  rewrite xmp_auth_ptr_run. mstep. kstate_simpl.
  rewrite sign_authenticate_roundtrip_aux by done.
  unfold as_address, free_pages. mstep. rewrite decide_False by done. mstep. kstate_simpl.
  rewrite lookup_insert_ne by done. rewrite lookup_delete_eq. by mstep.
Qed.

Lemma stale_capability_is_freed_twice_witness :
  ((message Demo.after_hello
    = Signed (sign Demo.page1 Demo.this_module (parrot_pdomain Demo.after_hello)))
   ∧ (Demo.page1 ≠ 0) ∧ is_Some (pages Demo.after_hello !! Demo.page1)
   ∧ (parrot_pdomain Demo.after_hello ∈ allocated Demo.after_hello)
   ∧ (Demo.page2 ≠ 0) ∧ (IS_ERR Demo.page2 = false) ∧ (Demo.page2 ≠ Demo.page1)
   ∧ (Z.of_nat (length Demo.hello) < 8 ≤ PAGE_SIZE))
  ∧ result_of
      (parrot_write Demo.this_module Demo.page1 Demo.hello 5
         (state_of (parrot_write Demo.this_module Demo.page2 Demo.hello 8 Demo.after_hello)))
    = Fault (NotAPage Demo.page1).
Proof.
  assert (message Demo.after_hello
          = Signed (sign Demo.page1 Demo.this_module (parrot_pdomain Demo.after_hello)))
    as H1 by (vm_compute; reflexivity).
  assert (Demo.page1 ≠ 0) as H2 by (vm_compute; discriminate).
  assert (is_Some (pages Demo.after_hello !! Demo.page1)) as H3
    by (vm_compute; eexists; reflexivity).
  assert (parrot_pdomain Demo.after_hello ∈ allocated Demo.after_hello) as H4
    by (vm_compute; reflexivity).
  assert (Demo.page2 ≠ 0) as H5 by (vm_compute; discriminate).
  assert (IS_ERR Demo.page2 = false) as H6 by (vm_compute; reflexivity).
  assert (Demo.page2 ≠ Demo.page1) as H7 by (vm_compute; discriminate).
  assert (Z.of_nat (length Demo.hello) < 8 ≤ PAGE_SIZE) as H8
    by (unfold PAGE_SIZE; simpl; lia).
  split; [done|].
  exact (proj1 (proj2
    (stale_capability_is_freed_twice Demo.this_module Demo.after_hello Demo.page1
       Demo.page2 Demo.page1 Demo.hello Demo.hello 8 5 H1 H2 H3 H4 H5 H6 H7 H8))).
Defined.

(** ** [parrot_exit] *)

(** X14: a module whose slot holds the capability of the one page it
    holds leaves nothing behind at exit: the capability is authenticated,
    the page freed, then the domain freed, then the device unregistered;
    no page is held and the domain is back in the pool. *)
Theorem exit_releases_everything (ctx : Z) (s : kstate) (a : Z) :
  message s = Signed (sign a ctx (parrot_pdomain s)) →
  a ≠ 0 → dom (pages s) = {[a]} →
  parrot_pdomain s ∈ allocated s →
  let e := parrot_exit ctx s in
  result_of e = Ret ()
  ∧ pages (state_of e) = ∅
  ∧ (parrot_pdomain s ∉ allocated (state_of e))
  ∧ trace_of e
    = [EvAuth (message s) (Handle a); EvFreePages a; EvFreeDomain (parrot_pdomain s);
       EvGlue device_destroy; EvGlue class_unregister; EvGlue class_destroy;
       EvGlue unregister_chrdev].
Proof.
  intros Hmsg Ha Hpages Hdom e.
  assert (is_Some (pages s !! a)) as Hpg.
  { apply elem_of_dom. rewrite Hpages. by apply elem_of_singleton. }
  unfold e. rewrite (parrot_exit_run ctx s a) by done.
  unfold result_of, state_of, trace_of; cbn [fst snd]. kstate_simpl.
  split_and!; try done.
  - apply dom_empty_iff_L. rewrite dom_delete_L, Hpages. apply difference_diag_L.
  - rewrite elem_of_difference, elem_of_singleton. tauto.
Qed.

Lemma exit_releases_everything_witness :
  ((message Demo.after_hello
    = Signed (sign Demo.page1 Demo.this_module (parrot_pdomain Demo.after_hello)))
   ∧ (Demo.page1 ≠ 0) ∧ (dom (pages Demo.after_hello) = {[Demo.page1]})
   ∧ (parrot_pdomain Demo.after_hello ∈ allocated Demo.after_hello))
  ∧ result_of (parrot_exit Demo.this_module Demo.after_hello) = Ret ()
  ∧ pages (state_of (parrot_exit Demo.this_module Demo.after_hello)) = ∅.
Proof.
  assert (message Demo.after_hello
          = Signed (sign Demo.page1 Demo.this_module (parrot_pdomain Demo.after_hello)))
    as H1 by (vm_compute; reflexivity).
  assert (Demo.page1 ≠ 0) as H2 by (vm_compute; discriminate).
  assert (dom (pages Demo.after_hello) = {[Demo.page1]}) as H3 by (vm_compute; reflexivity).
  assert (parrot_pdomain Demo.after_hello ∈ allocated Demo.after_hello) as H4
    by (vm_compute; reflexivity).
  split; [done|].
  pose proof (exit_releases_everything Demo.this_module Demo.after_hello Demo.page1
                H1 H2 H3 H4) as H.
  exact (conj (proj1 H) (proj1 (proj2 H))).
Defined.

(** ** The store across calls *)

Lemma store_inv_slot_ready (ctx : Z) (s : kstate) : store_inv ctx s → slot_ready ctx s.
Proof.
  intros [Hdom [[Hmsg _]|(a & Ha & Hmsg & Hpages)]]; unfold slot_ready; rewrite Hmsg.
  - done.
  - cbn [sign cap_handle]. split_and!; try done.
    apply elem_of_dom. rewrite Hpages. by apply elem_of_singleton.
Qed.

Lemma store_inv_released (ctx : Z) (s : kstate) : store_inv ctx s → pages_released s = ∅.
Proof.
  intros [Hdom [[Hmsg Hpages]|(a & Ha & Hmsg & Hpages)]]; unfold pages_released; rewrite Hmsg.
  - done.
  - cbn [sign cap_handle]. apply dom_empty_iff_L.
    rewrite dom_delete_L, Hpages. apply difference_diag_L.
Qed.

Lemma served_call_run (ctx max_pdomains : Z) (c : call) (s : kstate) :
  store_inv ctx s → served c →
  ∃ s' t, run_call ctx max_pdomains c s = (Ret (), s', t) ∧ store_inv ctx s'.
Proof.
  intros Hinv Hc. destruct c as [| |room len|fresh buffer len| |]; try done.
  - eexists _, _. cbn [run_call]. mstep. rewrite parrot_open_run. mstep.
    split; [reflexivity|]. by destruct s.
  - destruct Hc as (Hfresh & Herr & Hlen & Hpage).
    eexists _, _. cbn [run_call]. mstep.
    rewrite parrot_write_run by (done || lia || by apply store_inv_slot_ready).
    rewrite copy_complete by done. mstep.
    split; [reflexivity|].
    rewrite (store_inv_released ctx s Hinv), insert_empty.
    destruct Hinv as [Hdom _]. split; [done|].
    right. exists fresh. kstate_simpl. split_and!; [done|done|apply dom_singleton_L].
  - eexists _, _. cbn [run_call]. unfold parrot_release. mstep. by split.
Qed.

(** X15: started with the domain allocated and the slot either empty
    with no page held or naming the one page held, any sequence of opens,
    releases and writes that the environment serves in full (page
    granted, buffer readable, length within the page) runs to its end
    without a fault, and the module still holds at most one page, the one
    its slot names. *)
Theorem served_calls_keep_the_store (ctx max_pdomains : Z) (cs : list call) (s : kstate) :
  store_inv ctx s →
  Forall served cs →
  let r := run_calls ctx max_pdomains cs s in
  result_of r = Ret ()
  ∧ store_inv ctx (state_of r)
  ∧ (size (pages (state_of r)) ≤ 1)%nat.
Proof.
  intros Hinv Hcs r.
  assert (result_of r = Ret () ∧ store_inv ctx (state_of r)) as [Hr Hs].
  { unfold r. clear r. revert s Hinv.
    induction Hcs as [|c cs Hc Hcs IH]; intros s Hinv.
    - cbn [run_calls]. by rewrite run_ret.
    - destruct (served_call_run ctx max_pdomains c s Hinv Hc) as (s' & t & Hrun & Hinv').
      rewrite (run_calls_step ctx max_pdomains c cs s s' t Hrun).
      unfold result_of at 1, state_of at 1; cbn [fst snd]. by apply IH. }
  split_and!; [done|done|].
  destruct Hs as [_ [[_ Hpages]|(a & _ & _ & Hpages)]].
  - rewrite Hpages, map_size_empty. lia.
  - rewrite <- size_dom, Hpages, size_singleton. lia.
Qed.

Lemma served_calls_keep_the_store_witness :
  (store_inv Demo.this_module Demo.booted
   ∧ Forall served
       [CallOpen; CallWrite Demo.page1 Demo.hello 5; CallWrite Demo.page2 Demo.hello 3;
        CallRelease])
  ∧ result_of
      (run_calls Demo.this_module Demo.max_pdomains
         [CallOpen; CallWrite Demo.page1 Demo.hello 5; CallWrite Demo.page2 Demo.hello 3;
          CallRelease]
         Demo.booted)
    = Ret ().
Proof.
  assert (store_inv Demo.this_module Demo.booted) as H1.
  { split; [vm_compute; reflexivity|]. left. split; vm_compute; reflexivity. }
  assert (Forall served
            [CallOpen; CallWrite Demo.page1 Demo.hello 5; CallWrite Demo.page2 Demo.hello 3;
             CallRelease]) as H2.
  { repeat constructor; try (vm_compute; discriminate); vm_compute; reflexivity. }
  split; [done|].
  exact (proj1 (served_calls_keep_the_store Demo.this_module Demo.max_pdomains _
                  Demo.booted H1 H2)).
Defined.

(** X16: after a replacing write whose copy fell short, a read
    authenticates the stale capability and then reads the message from
    the page that was freed, unless the allocator handed that very
    address out again. *)
Theorem read_after_failed_replacement
    (ctx : Z) (s : kstate) (a fresh room len : Z) (buffer : list byte) (wlen : Z) :
  message s = Signed (sign a ctx (parrot_pdomain s)) →
  a ≠ 0 → is_Some (pages s !! a) →
  parrot_pdomain s ∈ allocated s →
  fresh ≠ 0 → IS_ERR fresh = false → fresh ≠ a →
  Z.of_nat (length buffer) < wlen ≤ PAGE_SIZE →
  let w := parrot_write ctx fresh buffer wlen s in
  parrot_read ctx room len (state_of w)
  = (Fault (NotAPage a), state_of w, [EvAuth (message s) (Handle a)]).
Proof.
  intros Hmsg Ha Hpg Hdom Hf He Hne Hl w.
  assert (slot_ready ctx s) as Hslot.
  { unfold slot_ready. rewrite Hmsg. by cbn [sign cap_handle]. }
  unfold w. rewrite parrot_write_run by (done || lia).
  rewrite copy_short by done.
  unfold state_of; cbn [fst snd id].
  unfold pages_released. rewrite Hmsg. cbn [sign cap_handle].
  unfold parrot_read. mstep. rewrite xmp_auth_ptr_run. mstep. kstate_simpl.
  rewrite Hmsg. rewrite sign_authenticate_roundtrip_aux by done.
  unfold as_address, load_cstring. mstep. kstate_simpl.
  rewrite lookup_insert_ne by done. rewrite lookup_delete_eq. by mstep.
Qed.

Lemma read_after_failed_replacement_witness :
  ((message Demo.after_hello
    = Signed (sign Demo.page1 Demo.this_module (parrot_pdomain Demo.after_hello)))
   ∧ (Demo.page1 ≠ 0) ∧ is_Some (pages Demo.after_hello !! Demo.page1)
   ∧ (parrot_pdomain Demo.after_hello ∈ allocated Demo.after_hello)
   ∧ (Demo.page2 ≠ 0) ∧ (IS_ERR Demo.page2 = false) ∧ (Demo.page2 ≠ Demo.page1)
   ∧ (Z.of_nat (length Demo.hello) < 8 ≤ PAGE_SIZE))
  ∧ result_of
      (parrot_read Demo.this_module 5 5
         (state_of (parrot_write Demo.this_module Demo.page2 Demo.hello 8 Demo.after_hello)))
    = Fault (NotAPage Demo.page1).
Proof.
  assert (message Demo.after_hello
          = Signed (sign Demo.page1 Demo.this_module (parrot_pdomain Demo.after_hello)))
    as H1 by (vm_compute; reflexivity).
  assert (Demo.page1 ≠ 0) as H2 by (vm_compute; discriminate).
  assert (is_Some (pages Demo.after_hello !! Demo.page1)) as H3
    by (vm_compute; eexists; reflexivity).
  assert (parrot_pdomain Demo.after_hello ∈ allocated Demo.after_hello) as H4
    by (vm_compute; reflexivity).
  assert (Demo.page2 ≠ 0) as H5 by (vm_compute; discriminate).
  assert (IS_ERR Demo.page2 = false) as H6 by (vm_compute; reflexivity).
  assert (Demo.page2 ≠ Demo.page1) as H7 by (vm_compute; discriminate).
  assert (Z.of_nat (length Demo.hello) < 8 ≤ PAGE_SIZE) as H8
    by (unfold PAGE_SIZE; simpl; lia).
  split; [done|].
  exact (f_equal result_of
           (read_after_failed_replacement Demo.this_module Demo.after_hello Demo.page1
              Demo.page2 5 5 Demo.hello 8 H1 H2 H3 H4 H5 H6 H7 H8)).
Defined.

(** X17: with a usable slot, a page granted and a length within the page,
    [parrot_write] returns the requested length when that many bytes
    could be read from the user buffer and [-EFAULT] otherwise; either
    way the new page is held and the domain is protected again. *)
Theorem write_result (ctx : Z) (s : kstate) (fresh : Z) (buffer : list byte) (len : Z) :
  slot_ready ctx s →
  fresh ≠ 0 → IS_ERR fresh = false →
  0 ≤ len ≤ PAGE_SIZE →
  let w := parrot_write ctx fresh buffer len s in
  result_of w = Ret (if decide (len ≤ Z.of_nat (length buffer)) then len else - EFAULT)
  ∧ mode (state_of w) = Protected
  ∧ fresh ∈ dom (pages (state_of w))
  ∧ (len ≤ Z.of_nat (length buffer) →
     message (state_of w) = Signed (sign fresh ctx (parrot_pdomain s))).
Proof.
  intros Hslot Hfresh Herr Hlen w. unfold w.
  rewrite parrot_write_run by done.
  unfold result_of, state_of; cbn [fst snd].
  destruct (decide (len ≤ Z.of_nat (length buffer))) as [Hok|Hshort].
  - rewrite copy_complete by lia. kstate_simpl.
    rewrite to_long_small by (unfold PAGE_SIZE in *; lia).
    split_and!; try done. rewrite dom_insert_L. apply elem_of_union; left.
    by apply elem_of_singleton.
  - rewrite copy_short by lia. cbn [id]. kstate_simpl.
    split_and!; try done. rewrite dom_insert_L. apply elem_of_union; left.
    by apply elem_of_singleton.
Qed.

Lemma write_result_witness :
  (slot_ready Demo.this_module Demo.booted
   ∧ (Demo.page1 ≠ 0) ∧ (IS_ERR Demo.page1 = false) ∧ (0 ≤ 5 ≤ PAGE_SIZE))
  ∧ result_of (parrot_write Demo.this_module Demo.page1 Demo.hello 5 Demo.booted)
    = Ret (if decide (5 ≤ Z.of_nat (length Demo.hello)) then 5 else - EFAULT).
Proof.
  assert (slot_ready Demo.this_module Demo.booted) as H1 by (vm_compute; reflexivity).
  assert (Demo.page1 ≠ 0) as H2 by (vm_compute; discriminate).
  assert (IS_ERR Demo.page1 = false) as H3 by (vm_compute; reflexivity).
  assert (0 ≤ 5 ≤ PAGE_SIZE) as H4 by (unfold PAGE_SIZE; lia).
  split; [done|].
  exact (proj1 (write_result Demo.this_module Demo.booted Demo.page1 Demo.hello 5
                  H1 H2 H3 H4)).
Defined.
